(** * jsonToBatchUpdateRequest: the Google-Doc-to-batch-request compiler

    A shallow embedding of [src/jsonToBatchUpdateRequest.ts]: the top-level
    pass [jsonToBatchUpdateRequest] with its [try]/[catch], the [for] loop
    over [docJSON.body.content] with the carried variable
    [newLineStyleUpdatesForAfterTableInsertion], and [handleSectionBreak]
    with its [delete] on the section style it was handed.

    JavaScript numbers are binary64 floats and are kept as such.  Objects
    the code only forwards are kept as JSON values.  The section-style
    objects, which the code mutates through one name and reads through
    another, live in a store addressed by location. *)

From Stdlib Require Import Floats.
From stdpp Require Import gmap strings list.

Set Warnings "-inexact-float,-register-all".
Open Scope string_scope.
Open Scope list_scope.

(** ** JavaScript values *)

Inductive JsVal :=
| JUndefined
| JNull
| JBool (b : bool)
| JNum (n : float)
| JStr (s : string)
| JArr (items : list JsVal)
| JObj (props : list (string * JsVal)).

(** An object's own properties, in insertion order. *)
Abbreviation Props := (list (string * JsVal)).

Module Js.

(** [o.k]: the first own property named [k], [undefined] when none. *)
Fixpoint get (k : string) (o : Props) : JsVal :=
  match o with
  | [] => JUndefined
  | (k', v) :: o' => if String.eqb k' k then v else get k o'
  end.

(** [delete o.k]. *)
Definition delete (k : string) (o : Props) : Props :=
  List.filter (fun kv => negb (String.eqb kv.1 k)) o.

Definition isUndefined (v : JsVal) : bool :=
  match v with JUndefined => true | _ => false end.

(** [v ?? d]. *)
Definition isNullish (v : JsVal) : bool :=
  match v with JUndefined | JNull => true | _ => false end.

Definition nullish (v d : JsVal) : JsVal :=
  if isNullish v then d else v.

(** [v === n] against a number literal: IEEE equality, so [-0 === 0] and
    [NaN] equals nothing. *)
Definition strictEqNum (v : JsVal) (n : float) : bool :=
  match v with JNum m => PrimFloat.eqb m n | _ => false end.

(** [v === s] against a string literal. *)
Definition strictEqStr (v : JsVal) (s : string) : bool :=
  match v with JStr t => String.eqb t s | _ => false end.

(** What a [throw] carries: an [Error] instance or any other value. *)
Record Error := { name : string; message : string; stack : string }.

Inductive Thrown :=
| ThrowError (e : Error)
| ThrowValue (v : JsVal).

Definition instanceofError (t : Thrown) : bool :=
  match t with ThrowError _ => true | ThrowValue _ => false end.

(** The engine's [TypeError]; its stack trace is the engine's business and
    is left empty. *)
Definition TypeError (msg : string) : Thrown :=
  ThrowError {| name := "TypeError"; message := msg; stack := "" |}.

(** [`${err}`] for an [Error] instance, as [Error.prototype.toString]
    builds it: the message alone under an empty name, the name alone under
    an empty message. *)
Definition toString (e : Error) : string :=
  if String.eqb (name e) "" then message e
  else if String.eqb (message e) "" then name e
  else (name e ++ ": " ++ message e)%string.

End Js.

(** ** Completions and the store *)

Inductive Completion (A : Type) :=
| Normal (a : A)
| Throw (t : Js.Thrown).
Arguments Normal {A} a.
Arguments Throw {A} t.

(** Locations of section-style objects. *)
Abbreviation loc := nat.
Abbreviation Store := (gmap loc Props).

(** A computation of the [try] block: it reads and writes the store and
    completes normally or abruptly; writes made before a [throw] stay. *)
Definition M (A : Type) : Type := Store → Completion A * Store.

Definition ret {A} (a : A) : M A := fun σ => (Normal a, σ).
Definition throw {A} (t : Js.Thrown) : M A := fun σ => (Throw t, σ).
Definition bind {A B} (m : M A) (k : A → M B) : M B :=
  fun σ => match m σ with
           | (Normal a, σ') => k a σ'
           | (Throw t, σ') => (Throw t, σ')
           end.
Definition lift {A} (c : Completion A) : M A := fun σ => (c, σ).
(** A call that may read the store but is not handed write access. *)
Definition reading {A} (f : Store → Completion A) : M A := fun σ => (f σ, σ).

Declare Scope js_scope.
Delimit Scope js_scope with js.
Notation "'let*' x ':=' m 'in' k" := (bind m (fun x => k))
  (at level 10, x name, m at level 100, k at level 200) : js_scope.
Open Scope js_scope.

(** [o.k] where [o] is a reference, possibly [undefined]: reading a property
    of [undefined] is a [TypeError]. *)
Definition getMember (o : option loc) (k : string) : M JsVal :=
  fun σ => match o ≫= (σ !!.) with
           | Some props => (Normal (Js.get k props), σ)
           | None => (Throw (Js.TypeError ("Cannot read properties of undefined (reading '" ++ k ++ "')")%string), σ)
           end.

(** [delete o.k] where [o] is a reference: the object at that location is
    updated in place; on [undefined] it is a [TypeError]. *)
Definition deleteMember (o : option loc) (k : string) : M loc :=
  fun σ => match o with
           | Some l =>
               match σ !! l with
               | Some props => (Normal l, <[l := Js.delete k props]> σ)
               | None => (Throw (Js.TypeError "Cannot convert undefined or null to object"), σ)
               end
           | None => (Throw (Js.TypeError "Cannot convert undefined or null to object"), σ)
           end.

(** The object behind a reference. *)
Definition deref (l : loc) : M Props :=
  fun σ => match σ !! l with
           | Some props => (Normal props, σ)
           | None => (Throw (Js.TypeError "Cannot convert undefined or null to object"), σ)
           end.

(** ** The document model ([docs_v1.Schema$Document], the parts the pass reads) *)

Record Dimension := { magnitude : JsVal; unit : JsVal }.
Record Size := { width : option Dimension; height : option Dimension }.

Record DocumentStyle := {
  pageSize : option Size;
  marginTop : option Dimension;
  marginBottom : option Dimension;
  marginRight : option Dimension;
  marginLeft : option Dimension;
  flipPageOrientation : JsVal;
}.

(** [sectionStyle] is a reference into the store, or absent. *)
Record SectionBreak := { sectionStyle : option loc }.

Record StructuralElement := {
  startIndex : JsVal;
  endIndex : JsVal;
  paragraph : JsVal;
  sectionBreak : option SectionBreak;
  table : JsVal;
}.

Record Body := { content : option (list StructuralElement) }.

Record Document := {
  body : option Body;
  inlineObjects : JsVal;
  documentStyle : option DocumentStyle;
}.

(** ** Requests ([docs_v1.Schema$Request]) *)

Record Range := { range_startIndex : JsVal; range_endIndex : JsVal; range_segmentId : string }.

Inductive InsertionPoint :=
| endOfSegmentLocation (segmentId : string)
| location (segmentId : string) (index : JsVal).

Inductive Request :=
| updateTextStyle (textStyle : Props) (fields : string) (range : Range)
| updateParagraphStyle (paragraphStyle : Props) (fields : string) (range : Range)
| insertSectionBreak (sectionType : JsVal) (at_ : InsertionPoint)
| updateSectionStyle (sectionStyle : loc) (range : Range) (fields : string)
| otherRequest (payload : JsVal).

(** ** The imported collaborators

    [pageUpdates], [paragraphUpdates], [tableUpdates] and
    [batchUpdateHelpers] are imported by the source file and are not part of
    it; they are parameters of the development.  Each may throw.  Those whose
    arguments carry references into the store may read it; none is handed
    write access, so the only writes to the document are the pass's own. *)

Record PageDimensions := { pd_height : JsVal; pd_width : JsVal }.
Record PageMargins := {
  pm_marginTop : JsVal; pm_marginBottom : JsVal;
  pm_marginRight : JsVal; pm_marginLeft : JsVal }.

Record ParagraphArgs := {
  paragraphElement : JsVal;
  pa_content : list StructuralElement;
  currentIndex : nat;
  pa_inlineObjects : JsVal;
  paragraphStartIndex : JsVal;
  paragraphEndIndex : JsVal;
  isLastContentOfTableCell : bool;
}.

Record ParagraphResult := {
  insertParagraphElementRequests : list Request;
  stylesForNewlineBeforeTable : option Request;   (* [None] is [null] *)
}.

Record TableArgs := {
  tableElement : JsVal;
  tableStartIndex : JsVal;
  tableEndIndex : JsVal;
  ta_inlineObjects : JsVal;
}.

Class Collaborators := {
  changePageDimensions : PageDimensions → Completion Request;
  changePageMargins : PageMargins → Completion Request;
  changePageOrientation : JsVal → Completion Request;
  handleParagraph : ParagraphArgs → Store → Completion ParagraphResult;
  handleTable : TableArgs → Completion (list Request);
  findStructuralElementType : StructuralElement → Store → Completion JsVal;
  getStylingFieldMask : Props → Completion string;
}.

(** Modelled from the spec: [getStylingFieldMask] of [batchUpdateHelpers],
    which is imported and not part of the source file.  The spec's field-mask
    deriver enumerates the top-level keys present on the object, leaves out
    the keys whose value is [undefined], and joins the names with commas in
    the object's own key order. *)
Definition maskFields (o : Props) : list string :=
  map fst (List.filter (fun kv => negb (Js.isUndefined kv.2)) o).

Definition deriveMask (o : Props) : string := String.concat "," (maskFields o).

(** ** The pass *)

Section Pass.
Context {E : Collaborators}.

(** *** SECTION BREAK STRUCTURAL ELEMENT HANDLING *)

Definition handleSectionBreak
    (sectionBreakElement : option SectionBreak)
    (sectionBreakStartIndex sectionBreakEndIndex : JsVal) : M (list Request) :=
  let startIndex := Js.nullish sectionBreakStartIndex (JNum 0) in
  let endIndex := sectionBreakEndIndex in
  let* element :=
    match sectionBreakElement with
    | Some e => ret e
    | None => throw (Js.TypeError "Cannot read properties of undefined (reading 'sectionStyle')")
    end in
  (* [sectionBreakStyle] names the object [sectionBreakElement.sectionStyle] *)
  let* sectionBreakStyle := deleteMember (sectionStyle element) "sectionType" in
  let* style := deref sectionBreakStyle in
  let* fields := lift (getStylingFieldMask style) in
  let updateSectionBreakRequest :=
    updateSectionStyle sectionBreakStyle
      {| range_startIndex := startIndex; range_endIndex := endIndex; range_segmentId := "" |}
      fields in
  if Js.strictEqNum startIndex 0 then
    ret [ insertSectionBreak (JStr "CONTINUOUS") (endOfSegmentLocation "");
          updateSectionBreakRequest ]
  else
    let* unspecified := getMember (sectionStyle element) "sectionType" in
    let* sectionType :=
      if Js.strictEqStr unspecified "SECTION_TYPE_UNSPECIFIED"
      then ret (JStr "CONTINUOUS")
      else getMember (sectionStyle element) "sectionType" in
    ret [ insertSectionBreak sectionType (location "" startIndex);
          updateSectionBreakRequest ].

(** *** The fixed prefix *)

Definition unitRange : Range :=
  {| range_startIndex := JNum 1; range_endIndex := JNum 2; range_segmentId := "" |}.

Definition PT (m : float) : JsVal := JObj [("magnitude", JNum m); ("unit", JStr "PT")].

Definition shrinkOriginalNewLine : list Request :=
  [ updateTextStyle [("fontSize", PT 1)] "fontSize" unitRange;
    updateParagraphStyle
      [("lineSpacing", JNum 0.06); ("spaceAbove", PT 0); ("spaceBelow", PT 0)]
      "lineSpacing,spaceAbove,spaceBelow" unitRange ].

(** [d?.magnitude]. *)
Definition magnitudeOf (d : option Dimension) : JsVal :=
  match d with Some d => magnitude d | None => JUndefined end.

(** *** The loop over [content] *)

(** The variables the loop carries from one element to the next. *)
Record LoopState := {
  requests : list Request;
  newLineStyleUpdatesForAfterTableInsertion : option Request;
}.

(** One iteration: the body of the [for] at index [i]. *)
Definition loopBody (inlineObjects : JsVal) (content : list StructuralElement)
    (i : nat) (structuralElement : StructuralElement) (st : LoopState) : M LoopState :=
  let startIndex := startIndex structuralElement in
  let endIndex := endIndex structuralElement in
  let* structuralElementType := reading (findStructuralElementType structuralElement) in
  if Js.strictEqStr structuralElementType "paragraph" then
    let* r := reading (handleParagraph
      {| paragraphElement := paragraph structuralElement;
         pa_content := content;
         currentIndex := i;
         pa_inlineObjects := inlineObjects;
         paragraphStartIndex := startIndex;
         paragraphEndIndex := endIndex;
         isLastContentOfTableCell := false |}) in
    ret {| requests := requests st ++ insertParagraphElementRequests r;
           newLineStyleUpdatesForAfterTableInsertion := stylesForNewlineBeforeTable r |}
  else if Js.strictEqStr structuralElementType "sectionBreak" then
    let* sectionBreakInsertionRequest :=
      handleSectionBreak (sectionBreak structuralElement) startIndex endIndex in
    ret {| requests := requests st ++ sectionBreakInsertionRequest;
           newLineStyleUpdatesForAfterTableInsertion :=
             newLineStyleUpdatesForAfterTableInsertion st |}
  else if Js.strictEqStr structuralElementType "table" then
    let* tableInsertionRequest := lift (handleTable
      {| tableElement := table structuralElement;
         tableStartIndex := startIndex;
         tableEndIndex := endIndex;
         ta_inlineObjects := inlineObjects |}) in
    match newLineStyleUpdatesForAfterTableInsertion st with
    | Some pending =>
        ret {| requests := (requests st ++ tableInsertionRequest) ++ [pending];
               newLineStyleUpdatesForAfterTableInsertion := None |}
    | None =>
        ret {| requests := requests st ++ tableInsertionRequest;
               newLineStyleUpdatesForAfterTableInsertion := None |}
    end
  else ret st.

(** [for (let i = 0; i < content.length; i++)]: [rest] is what is left of
    [content] from index [i] on. *)
Fixpoint forLoop (inlineObjects : JsVal) (content rest : list StructuralElement)
    (i : nat) (st : LoopState) : M LoopState :=
  match rest with
  | [] => ret st
  | structuralElement :: rest' =>
      let* st' := loopBody inlineObjects content i structuralElement st in
      forLoop inlineObjects content rest' (S i) st'
  end.

(** *** The [try] block *)

Definition tryBlock (docJSON : Document) : M (list Request) :=
  let* body :=
    match body docJSON with
    | Some b => ret b
    | None => throw (Js.TypeError "Cannot read properties of undefined (reading 'content')")
    end in
  let content := content body in
  let inlineObjects := inlineObjects docJSON in
  let docStyle := documentStyle docJSON in
  let docPageSize := docStyle ≫= pageSize in
  let widthMagnitude := magnitudeOf (docPageSize ≫= width) in
  let heightMagnitude := magnitudeOf (docPageSize ≫= height) in
  let* changePageSizeReq := lift (changePageDimensions
    {| pd_height := heightMagnitude; pd_width := widthMagnitude |}) in
  let marginTopMagnitude := magnitudeOf (docStyle ≫= marginTop) in
  let marginBottomMagnitude := magnitudeOf (docStyle ≫= marginBottom) in
  let marginRightMagnitude := magnitudeOf (docStyle ≫= marginRight) in
  let marginLeftMagnitude := magnitudeOf (docStyle ≫= marginLeft) in
  let* changePageMarginsReq := lift (changePageMargins
    {| pm_marginTop := marginTopMagnitude; pm_marginBottom := marginBottomMagnitude;
       pm_marginRight := marginRightMagnitude; pm_marginLeft := marginLeftMagnitude |}) in
  let flipPageOrientationFlag :=
    match docStyle with Some s => flipPageOrientation s | None => JUndefined end in
  let* flipOrientationReq := lift (changePageOrientation flipPageOrientationFlag) in
  let* elements :=
    match content with
    | Some c => ret c
    | None => throw (Js.TypeError "Cannot read properties of undefined (reading 'length')")
    end in
  let* final := forLoop inlineObjects elements elements 0
    {| requests :=
         shrinkOriginalNewLine ++ [changePageSizeReq; flipOrientationReq; changePageMarginsReq];
       newLineStyleUpdatesForAfterTableInsertion := None |} in
  ret (requests final).

(** *** [try] / [catch] *)

(** What a call leaves behind: the returned value ([None] is [undefined]),
    the lines written by [console.error], and the store. *)
Record Outcome := {
  returned : option (list Request);
  console : list string;
  store : Store;
}.

Definition logLine (e : Js.Error) : string :=
  ("There was an error in Google Doc JSON conversion to batch requests -  "
    ++ Js.toString e ++ String (Ascii.ascii_of_nat 10) (Js.stack e))%string.

Definition jsonToBatchUpdateRequest (docJSON : Document) (σ : Store) : Outcome :=
  match tryBlock docJSON σ with
  | (Normal requests, σ') => {| returned := Some requests; console := []; store := σ' |}
  | (Throw err, σ') =>
      {| returned := None;
         console := match err with
                    | Js.ThrowError e => [logLine e]
                    | Js.ThrowValue _ => []
                    end;
         store := σ' |}
  end.

End Pass.

(** ** Vocabulary of the statements *)

(** The argument objects the loop builds for the two delegated handlers. *)
Definition paragraphCall (inlineObjects : JsVal) (content : list StructuralElement)
    (i : nat) (e : StructuralElement) : ParagraphArgs :=
  {| paragraphElement := paragraph e;
     pa_content := content;
     currentIndex := i;
     pa_inlineObjects := inlineObjects;
     paragraphStartIndex := startIndex e;
     paragraphEndIndex := endIndex e;
     isLastContentOfTableCell := false |}.

Definition tableCall (inlineObjects : JsVal) (e : StructuralElement) : TableArgs :=
  {| tableElement := table e;
     tableStartIndex := startIndex e;
     tableEndIndex := endIndex e;
     ta_inlineObjects := inlineObjects |}.

(** The arguments handed to the three page-style emitters. *)
Definition pageSizeOf (d : Document) : PageDimensions :=
  {| pd_height := magnitudeOf ((documentStyle d ≫= pageSize) ≫= height);
     pd_width := magnitudeOf ((documentStyle d ≫= pageSize) ≫= width) |}.

Definition pageMarginsOf (d : Document) : PageMargins :=
  {| pm_marginTop := magnitudeOf (documentStyle d ≫= marginTop);
     pm_marginBottom := magnitudeOf (documentStyle d ≫= marginBottom);
     pm_marginRight := magnitudeOf (documentStyle d ≫= marginRight);
     pm_marginLeft := magnitudeOf (documentStyle d ≫= marginLeft) |}.

Definition orientationOf (d : Document) : JsVal :=
  match documentStyle d with Some s => flipPageOrientation s | None => JUndefined end.

(** [docJSON.body.content], when both are there. *)
Definition contentOf (d : Document) : option (list StructuralElement) :=
  body d ≫= content.

Section Vocabulary.
Context {E : Collaborators}.

(** The request that carries the style, as the handler builds it. *)
Definition styleUpdate (l : loc) (startIndex endIndex : JsVal) (fields : string) : Request :=
  updateSectionStyle l
    {| range_startIndex := startIndex; range_endIndex := endIndex; range_segmentId := "" |}
    fields.

(** The three page-style emitters complete normally on this document. *)
Definition PageStyle (d : Document) (size orientation margins : Request) : Prop :=
  changePageDimensions (pageSizeOf d) = Normal size
  ∧ changePageOrientation (orientationOf d) = Normal orientation
  ∧ changePageMargins (pageMarginsOf d) = Normal margins.

(** The list [requests] starts from. *)
Definition initialRequests (size orientation margins : Request) : list Request :=
  shrinkOriginalNewLine ++ [size; orientation; margins].

Definition initialState (size orientation margins : Request) : LoopState :=
  {| requests := initialRequests size orientation margins;
     newLineStyleUpdatesForAfterTableInsertion := None |}.

(** The same loop variables with another value in the pending slot. *)
Definition withPending (p : option Request) (st : LoopState) : LoopState :=
  {| requests := requests st; newLineStyleUpdatesForAfterTableInsertion := p |}.

(** An element the classifier never reports as a paragraph or a table. *)
Definition NeitherParagraphNorTable (e : StructuralElement) : Prop :=
  ∀ σ, findStructuralElementType e σ ≠ Normal (JStr "paragraph")
       ∧ findStructuralElementType e σ ≠ Normal (JStr "table").

(** What a run does to the slot when only the slot's content differs. *)
Definition carrying (p : option Request) (r : Completion LoopState * Store)
    : Completion LoopState * Store :=
  match r with
  | (Normal st, σ) => (Normal (withPending p st), σ)
  | (Throw t, σ) => (Throw t, σ)
  end.

(** The section break's style object, when the element, its style and the
    object behind it are all there. *)
Definition styleOf (sb : option SectionBreak) (σ : Store) : option (loc * Props) :=
  match sb ≫= sectionStyle with
  | Some l => match σ !! l with Some style => Some (l, style) | None => None end
  | None => None
  end.

(** The two requests the section-break handler answers with. *)
Definition sectionBreakPair (l : loc) (start endIndex : JsVal) (fields : string)
    : list Request :=
  [ (if Js.strictEqNum (Js.nullish start (JNum 0)) 0
     then insertSectionBreak (JStr "CONTINUOUS") (endOfSegmentLocation "")
     else insertSectionBreak JUndefined (location "" (Js.nullish start (JNum 0))));
    styleUpdate l (Js.nullish start (JNum 0)) endIndex fields ].

(** [σ'] is [σ] where some objects have lost [sectionType] and nothing else
    has happened: no object appears or disappears, no other property moves. *)
Definition StrippedFrom (σ σ' : Store) : Prop :=
  ∀ l, σ' !! l = σ !! l ∨ σ' !! l = Js.delete "sectionType" <$> σ !! l.

(** Elements the classifier never, respectively always, reports as a given
    kind, whatever the store. *)
Definition NotParagraph (e : StructuralElement) : Prop :=
  ∀ σ, findStructuralElementType e σ ≠ Normal (JStr "paragraph").

Definition NotSectionBreak (e : StructuralElement) : Prop :=
  ∀ σ, findStructuralElementType e σ ≠ Normal (JStr "sectionBreak").

Definition AlwaysSectionBreak (e : StructuralElement) : Prop :=
  ∀ σ, findStructuralElementType e σ = Normal (JStr "sectionBreak").

(** An element the classifier always reports as of a kind the [switch] has
    no case for. *)
Definition Unsupported (e : StructuralElement) : Prop :=
  ∀ σ, ∃ kind, findStructuralElementType e σ = Normal kind
               ∧ kind ≠ JStr "paragraph" ∧ kind ≠ JStr "sectionBreak"
               ∧ kind ≠ JStr "table".

End Vocabulary.

(** ** Scripted collaborators

    Stand-ins for the imported modules, used to run the pass on concrete
    documents.  The paragraph and table handlers read their answer off the
    payload they are given, so that a document can script a pending newline
    style or a fault. *)

Module Script.

Definition classify (e : StructuralElement) : JsVal :=
  if negb (Js.isUndefined (paragraph e)) then JStr "paragraph"
  else if bool_decide (is_Some (sectionBreak e)) then JStr "sectionBreak"
  else if negb (Js.isUndefined (table e)) then JStr "table"
  else JStr "tableOfContents".

Definition payloadProps (v : JsVal) : Props :=
  match v with JObj props => props | _ => [] end.

(** A payload with a [throw] property makes its handler throw that value. *)
Definition faultOf (v : JsVal) : option Js.Thrown :=
  match Js.get "throw" (payloadProps v) with
  | JUndefined => None
  | JStr msg => Some (Js.ThrowError {| Js.name := "Error"; Js.message := msg; Js.stack := "" |})
  | other => Some (Js.ThrowValue other)
  end.

Definition pendingOf (v : JsVal) : option Request :=
  match Js.get "newlineStyle" (payloadProps v) with
  | JUndefined | JNull => None
  | style => Some (otherRequest (JObj [("updateParagraphStyle", style)]))
  end.

Definition paragraphHandler (a : ParagraphArgs) (σ : Store) : Completion ParagraphResult :=
  match faultOf (paragraphElement a) with
  | Some t => Throw t
  | None =>
      Normal {| insertParagraphElementRequests :=
                  [otherRequest (JObj [("insertText", Js.get "text" (payloadProps (paragraphElement a)))])];
                stylesForNewlineBeforeTable := pendingOf (paragraphElement a) |}
  end.

Definition tableHandler (a : TableArgs) : Completion (list Request) :=
  match faultOf (tableElement a) with
  | Some t => Throw t
  | None =>
      Normal [ otherRequest (JObj [("insertTable", Js.get "rows" (payloadProps (tableElement a)))]);
               otherRequest (JObj [("insertText", Js.get "cells" (payloadProps (tableElement a)))]) ]
  end.

Definition documentStyleRequest (field : string) (v : JsVal) : Request :=
  otherRequest (JObj [("updateDocumentStyle", JObj [(field, v)])]).

Definition collaborators : Collaborators := {|
  changePageDimensions d :=
    Normal (documentStyleRequest "pageSize" (JArr [pd_width d; pd_height d]));
  changePageMargins m :=
    Normal (documentStyleRequest "margins"
      (JArr [pm_marginTop m; pm_marginBottom m; pm_marginRight m; pm_marginLeft m]));
  changePageOrientation flag :=
    Normal (documentStyleRequest "flipPageOrientation" flag);
  handleParagraph := paragraphHandler;
  handleTable := tableHandler;
  findStructuralElementType e _ := Normal (classify e);
  getStylingFieldMask o := Normal (deriveMask o);
|}.

(** Elements of each kind. *)
Definition paragraphAt (s e : float) (payload : Props) : StructuralElement :=
  {| startIndex := JNum s; endIndex := JNum e; paragraph := JObj payload;
     sectionBreak := None; table := JUndefined |}.

Definition tableAt (s e : float) (payload : Props) : StructuralElement :=
  {| startIndex := JNum s; endIndex := JNum e; paragraph := JUndefined;
     sectionBreak := None; table := JObj payload |}.

Definition sectionBreakAt (s e : JsVal) (style : option loc) : StructuralElement :=
  {| startIndex := s; endIndex := e; paragraph := JUndefined;
     sectionBreak := Some {| sectionStyle := style |}; table := JUndefined |}.

Definition tableOfContentsAt (s e : float) : StructuralElement :=
  {| startIndex := JNum s; endIndex := JNum e; paragraph := JUndefined;
     sectionBreak := None; table := JUndefined |}.

Definition documentOf (elements : option (list StructuralElement)) : Document :=
  {| body := Some {| content := elements |};
     inlineObjects := JObj [];
     documentStyle := Some
       {| pageSize := Some {| width := Some {| magnitude := JNum 612; unit := JStr "PT" |};
                              height := Some {| magnitude := JNum 792; unit := JStr "PT" |} |};
          marginTop := None; marginBottom := None; marginRight := None; marginLeft := None;
          flipPageOrientation := JBool true |} |}.

(** *** Sample documents *)

(** The style of a document's opening section break as the Docs API
    returns it, and one whose type is left unspecified. *)
Definition openingStyle : Props :=
  [ ("columnSeparatorStyle", JStr "NONE");
    ("contentDirection", JStr "LEFT_TO_RIGHT");
    ("sectionType", JStr "CONTINUOUS") ].

Definition unspecifiedStyle : Props :=
  [ ("sectionType", JStr "SECTION_TYPE_UNSPECIFIED");
    ("contentDirection", JStr "LEFT_TO_RIGHT") ].

Definition heap : Store := {[ 0 := openingStyle; 7 := unspecifiedStyle ]}.

Definition opening : StructuralElement := sectionBreakAt JUndefined (JNum 1) (Some 0).
Definition midBreak : StructuralElement := sectionBreakAt (JNum 5) (JNum 6) (Some 7).

Definition intro : StructuralElement :=
  paragraphAt 1 7 [("text", JStr "Intro"); ("newlineStyle", JObj [("lineSpacing", JNum 100)])].
Definition plain : StructuralElement := paragraphAt 7 12 [("text", JStr "Body")].
Definition grid : StructuralElement := tableAt 12 30 [("rows", JNum 2)].
Definition grid' : StructuralElement := tableAt 30 50 [("rows", JNum 3)].
Definition toc : StructuralElement := tableOfContentsAt 50 60.
Definition faulty : StructuralElement := tableAt 1 9 [("throw", JNum 1)].

(** What the scripted collaborators answer on them. *)
Definition sizeReq : Request := documentStyleRequest "pageSize" (JArr [JNum 612; JNum 792]).
Definition orientationReq : Request := documentStyleRequest "flipPageOrientation" (JBool true).
Definition marginsReq : Request :=
  documentStyleRequest "margins" (JArr [JUndefined; JUndefined; JUndefined; JUndefined]).

Definition introCmds : list Request := [otherRequest (JObj [("insertText", JStr "Intro")])].
Definition introPending : Request :=
  otherRequest (JObj [("updateParagraphStyle", JObj [("lineSpacing", JNum 100)])]).
Definition plainCmds : list Request := [otherRequest (JObj [("insertText", JStr "Body")])].
Definition gridCmds : list Request :=
  [ otherRequest (JObj [("insertTable", JNum 2)]);
    otherRequest (JObj [("insertText", JUndefined)]) ].
Definition gridCmds' : list Request :=
  [ otherRequest (JObj [("insertTable", JNum 3)]);
    otherRequest (JObj [("insertText", JUndefined)]) ].

(** Collaborators of which one faults: the field-mask deriver, or the
    margins emitter together with the orientation emitter. *)
Definition brokenMask : Collaborators := {|
  changePageDimensions := @changePageDimensions collaborators;
  changePageMargins := @changePageMargins collaborators;
  changePageOrientation := @changePageOrientation collaborators;
  handleParagraph := paragraphHandler;
  handleTable := tableHandler;
  findStructuralElementType e _ := Normal (classify e);
  getStylingFieldMask _ := Throw (Js.ThrowValue (JStr "mask"));
|}.

Definition brokenEmitters : Collaborators := {|
  changePageDimensions := @changePageDimensions collaborators;
  changePageMargins _ := Throw (Js.ThrowValue (JStr "margins"));
  changePageOrientation _ := Throw (Js.ThrowValue (JStr "orientation"));
  handleParagraph := paragraphHandler;
  handleTable := tableHandler;
  findStructuralElementType e _ := Normal (classify e);
  getStylingFieldMask o := Normal (deriveMask o);
|}.

(** A section break that has lost its style. *)
Definition bare : StructuralElement := sectionBreakAt (JNum 5) (JNum 6) None.

End Script.

(** ** Properties of the object operations *)

Lemma get_delete_same (k : string) (o : Props) :
  Js.get k (Js.delete k o) = JUndefined.
Proof.
  induction o as [|[k' v] o IH]; simpl; [reflexivity|].
  destruct (String.eqb k' k) eqn:Hk; simpl; [exact IH|].
  rewrite Hk. exact IH.
Qed.

Lemma delete_keys_exclude (k : string) (o : Props) :
  ¬ In k (map fst (Js.delete k o)).
Proof.
  intros Hin. apply in_map_iff in Hin as [[k' v] [Hfst Hin]].
  simpl in Hfst. subst k'.
  apply filter_In in Hin as [_ Hneq]. simpl in Hneq.
  rewrite String.eqb_refl in Hneq. discriminate.
Qed.

Lemma maskFields_subset (o : Props) (k : string) :
  In k (maskFields o) → In k (map fst o).
Proof.
  unfold maskFields. intros Hin.
  apply in_map_iff in Hin as [kv [Hfst Hin]].
  apply filter_In in Hin as [Hin _].
  apply in_map_iff. exists kv. split; assumption.
Qed.

Lemma maskFields_delete (k : string) (o : Props) :
  ¬ In k (maskFields (Js.delete k o)).
Proof.
  intros Hin. apply maskFields_subset in Hin.
  exact (delete_keys_exclude k o Hin).
Qed.

Lemma strictEqStr_false (v : JsVal) (s : string) :
  v ≠ JStr s → Js.strictEqStr v s = false.
Proof.
  intros Hne. destruct v; simpl; try reflexivity.
  destruct (String.eqb s0 s) eqn:Heq; [|reflexivity].
  apply String.eqb_eq in Heq. subst. contradiction.
Qed.

Lemma nullish_absent (v d : JsVal) :
  Js.isNullish v = true → Js.nullish v d = d.
Proof. unfold Js.nullish. intros ->. reflexivity. Qed.

(** ** Running the monad *)

Lemma bind_Normal {A B} (m : M A) (k : A → M B) σ a σ' :
  m σ = (Normal a, σ') → bind m k σ = k a σ'.
Proof. unfold bind. intros ->. reflexivity. Qed.

Lemma bind_Throw {A B} (m : M A) (k : A → M B) σ t σ' :
  m σ = (Throw t, σ') → bind m k σ = (Throw t, σ').
Proof. unfold bind. intros ->. reflexivity. Qed.

Lemma bind_ret {A B} (a : A) (k : A → M B) σ :
  bind (ret a) k σ = k a σ.
Proof. reflexivity. Qed.

Lemma bind_throw {A B} (t : Js.Thrown) (k : A → M B) σ :
  bind (throw t) k σ = (Throw t, σ).
Proof. reflexivity. Qed.

Lemma bind_lift_Normal {A B} (c : Completion A) (k : A → M B) σ a :
  c = Normal a → bind (lift c) k σ = k a σ.
Proof. intros ->. reflexivity. Qed.

Lemma bind_lift_Throw {A B} (c : Completion A) (k : A → M B) σ t :
  c = Throw t → bind (lift c) k σ = (Throw t, σ).
Proof. intros ->. reflexivity. Qed.

Lemma bind_reading_Normal {A B} (f : Store → Completion A) (k : A → M B) σ a :
  f σ = Normal a → bind (reading f) k σ = k a σ.
Proof. unfold bind, reading. intros ->. reflexivity. Qed.

Lemma bind_reading_Throw {A B} (f : Store → Completion A) (k : A → M B) σ t :
  f σ = Throw t → bind (reading f) k σ = (Throw t, σ).
Proof. unfold bind, reading. intros ->. reflexivity. Qed.

Lemma deleteMember_run (l : loc) (k : string) (σ : Store) (o : Props) :
  σ !! l = Some o →
  deleteMember (Some l) k σ = (Normal l, <[l := Js.delete k o]> σ).
Proof. unfold deleteMember. intros ->. reflexivity. Qed.

Lemma deref_insert (l : loc) (o : Props) (σ : Store) :
  deref l (<[l := o]> σ) = (Normal o, <[l := o]> σ).
Proof. unfold deref. rewrite lookup_insert_eq. reflexivity. Qed.

Lemma getMember_insert (l : loc) (k : string) (o : Props) (σ : Store) :
  getMember (Some l) k (<[l := o]> σ) = (Normal (Js.get k o), <[l := o]> σ).
Proof. unfold getMember. simpl. rewrite lookup_insert_eq. reflexivity. Qed.

(** ** The section-break handler *)

Section SectionBreakFacts.
Context {E : Collaborators}.

(** The handler on a section break whose style object exists: the style
    loses [sectionType] in the store, and the type of the insertion is read
    from the store after that. *)
Lemma handleSectionBreak_run (element : SectionBreak) (l : loc) (style : Props)
    (start endIndex : JsVal) (fields : string) (σ : Store) :
  sectionStyle element = Some l →
  σ !! l = Some style →
  getStylingFieldMask (Js.delete "sectionType" style) = Normal fields →
  handleSectionBreak (Some element) start endIndex σ =
    (Normal
       [ (if Js.strictEqNum (Js.nullish start (JNum 0)) 0
          then insertSectionBreak (JStr "CONTINUOUS") (endOfSegmentLocation "")
          else insertSectionBreak JUndefined (location "" (Js.nullish start (JNum 0))));
         styleUpdate l (Js.nullish start (JNum 0)) endIndex fields ],
     <[l := Js.delete "sectionType" style]> σ).
Proof.
  intros Hstyle Hl Hmask. unfold handleSectionBreak.
  rewrite bind_ret, Hstyle.
  rewrite (bind_Normal _ _ _ _ _ (deleteMember_run l "sectionType" σ style Hl)).
  rewrite (bind_Normal _ _ _ _ _ (deref_insert l _ σ)).
  rewrite (bind_lift_Normal _ _ _ _ Hmask).
  destruct (Js.strictEqNum (Js.nullish start (JNum 0)) 0); [reflexivity|].
  rewrite (bind_Normal _ _ _ _ _ (getMember_insert l "sectionType" _ σ)).
  rewrite get_delete_same. simpl.
  rewrite (bind_Normal _ _ _ _ _ (getMember_insert l "sectionType" _ σ)).
  rewrite get_delete_same. reflexivity.
Qed.

(** With a start index that is not zero the insertion never carries a
    type, whatever [sectionType] the style had. *)
Lemma handleSectionBreak_nonzero_untyped (element : SectionBreak) (l : loc) (style : Props)
    (start endIndex : JsVal) (fields : string) (σ : Store) :
  sectionStyle element = Some l →
  σ !! l = Some style →
  getStylingFieldMask (Js.delete "sectionType" style) = Normal fields →
  Js.strictEqNum (Js.nullish start (JNum 0)) 0 = false →
  handleSectionBreak (Some element) start endIndex σ =
    (Normal
       [ insertSectionBreak JUndefined (location "" (Js.nullish start (JNum 0)));
         styleUpdate l (Js.nullish start (JNum 0)) endIndex fields ],
     <[l := Js.delete "sectionType" style]> σ).
Proof.
  intros Hstyle Hl Hmask Hnz.
  rewrite (handleSectionBreak_run element l style start endIndex fields σ Hstyle Hl Hmask).
  rewrite Hnz. reflexivity.
Qed.

(** C4. A section break whose start index is absent ([undefined] or
    [null]) and whose style object exists is handled with start index 0:
    the handler returns, in this order, the insertion of a ["CONTINUOUS"]
    section break at the end of the root segment and the style update over
    the range from 0 to the element's end index in the root segment.  The
    field mask is the one derived from the style without [sectionType],
    and [sectionType] is not among its fields. *)
Theorem absent_start_bootstraps (element : SectionBreak) (l : loc) (style : Props)
    (start endIndex : JsVal) (σ : Store) :
  Js.isNullish start = true →
  sectionStyle element = Some l →
  σ !! l = Some style →
  (∀ o, getStylingFieldMask o = Normal (deriveMask o)) →
  handleSectionBreak (Some element) start endIndex σ =
    (Normal
       [ insertSectionBreak (JStr "CONTINUOUS") (endOfSegmentLocation "");
         updateSectionStyle l
           {| range_startIndex := JNum 0; range_endIndex := endIndex; range_segmentId := "" |}
           (String.concat "," (maskFields (Js.delete "sectionType" style))) ],
     <[l := Js.delete "sectionType" style]> σ)
  ∧ ¬ In "sectionType" (maskFields (Js.delete "sectionType" style)).
Proof.
  intros Habsent Hstyle Hl Hmask. split.
  - rewrite (handleSectionBreak_run element l style start endIndex _ σ Hstyle Hl (Hmask _)).
    rewrite (nullish_absent _ _ Habsent). reflexivity.
  - apply maskFields_delete.
Qed.

End SectionBreakFacts.

(** ** The loop *)

(** Decide the [switch] once the kind is a known string. *)
Ltac switch_on_kind :=
  repeat match goal with
  | |- context [Js.strictEqStr (JStr ?a) ?b] =>
      let v := eval vm_compute in (Js.strictEqStr (JStr a) b) in
      change (Js.strictEqStr (JStr a) b) with v
  end;
  cbv iota.

Section LoopFacts.
Context {E : Collaborators}.
Variables (inlineObjects : JsVal) (content : list StructuralElement).

Lemma loopBody_paragraph (i : nat) (e : StructuralElement) (st : LoopState)
    (r : ParagraphResult) (σ : Store) :
  findStructuralElementType e σ = Normal (JStr "paragraph") →
  handleParagraph (paragraphCall inlineObjects content i e) σ = Normal r →
  loopBody inlineObjects content i e st σ =
    (Normal {| requests := requests st ++ insertParagraphElementRequests r;
               newLineStyleUpdatesForAfterTableInsertion := stylesForNewlineBeforeTable r |},
     σ).
Proof.
  intros Hkind Hcall. unfold loopBody.
  rewrite (bind_reading_Normal _ _ _ _ Hkind). switch_on_kind.
  unfold paragraphCall in Hcall.
  rewrite (bind_reading_Normal _ _ _ _ Hcall). reflexivity.
Qed.

Lemma loopBody_table (i : nat) (e : StructuralElement) (st : LoopState)
    (cmds : list Request) (σ : Store) :
  findStructuralElementType e σ = Normal (JStr "table") →
  handleTable (tableCall inlineObjects e) = Normal cmds →
  loopBody inlineObjects content i e st σ =
    (Normal {| requests :=
                 requests st ++ cmds
                   ++ option_list (newLineStyleUpdatesForAfterTableInsertion st);
               newLineStyleUpdatesForAfterTableInsertion := None |},
     σ).
Proof.
  intros Hkind Hcall. unfold loopBody.
  rewrite (bind_reading_Normal _ _ _ _ Hkind). switch_on_kind.
  unfold tableCall in Hcall.
  rewrite (bind_lift_Normal _ _ _ _ Hcall).
  destruct (newLineStyleUpdatesForAfterTableInsertion st) as [pending|]; simpl.
  - unfold ret. rewrite <- app_assoc. reflexivity.
  - unfold ret. rewrite app_nil_r. reflexivity.
Qed.

Lemma loopBody_sectionBreak (i : nat) (e : StructuralElement) (st : LoopState)
    (cmds : list Request) (σ σ' : Store) :
  findStructuralElementType e σ = Normal (JStr "sectionBreak") →
  handleSectionBreak (sectionBreak e) (startIndex e) (endIndex e) σ = (Normal cmds, σ') →
  loopBody inlineObjects content i e st σ =
    (Normal {| requests := requests st ++ cmds;
               newLineStyleUpdatesForAfterTableInsertion :=
                 newLineStyleUpdatesForAfterTableInsertion st |},
     σ').
Proof.
  intros Hkind Hcall. unfold loopBody.
  rewrite (bind_reading_Normal _ _ _ _ Hkind). switch_on_kind.
  rewrite (bind_Normal _ _ _ _ _ Hcall). reflexivity.
Qed.

Lemma loopBody_skip (i : nat) (e : StructuralElement) (st : LoopState)
    (kind : JsVal) (σ : Store) :
  findStructuralElementType e σ = Normal kind →
  kind ≠ JStr "paragraph" → kind ≠ JStr "sectionBreak" → kind ≠ JStr "table" →
  loopBody inlineObjects content i e st σ = (Normal st, σ).
Proof.
  intros Hkind Hp Hs Ht. unfold loopBody.
  rewrite (bind_reading_Normal _ _ _ _ Hkind).
  rewrite (strictEqStr_false _ _ Hp), (strictEqStr_false _ _ Hs), (strictEqStr_false _ _ Ht).
  reflexivity.
Qed.

(** An iteration only ever appends to [requests]. *)
Lemma loopBody_extends (i : nat) (e : StructuralElement) (st st' : LoopState) (σ σ' : Store) :
  loopBody inlineObjects content i e st σ = (Normal st', σ') →
  ∃ more, requests st' = requests st ++ more.
Proof.
  unfold loopBody, bind, reading, lift, ret.
  destruct (findStructuralElementType e σ) as [kind|t]; [|discriminate].
  destruct (Js.strictEqStr kind "paragraph").
  { destruct (handleParagraph _ σ) as [r|t]; [|discriminate].
    intros [= <- <-]. eexists. reflexivity. }
  destruct (Js.strictEqStr kind "sectionBreak").
  { destruct (handleSectionBreak _ _ _ σ) as [[cmds|t] σ'']; [|discriminate].
    intros [= <- <-]. eexists. reflexivity. }
  destruct (Js.strictEqStr kind "table").
  { destruct (handleTable _) as [cmds|t]; [|discriminate].
    destruct (newLineStyleUpdatesForAfterTableInsertion st) as [pending|];
      intros [= <- <-]; simpl.
    - exists (cmds ++ [pending]). apply eq_sym, app_assoc.
    - eexists. reflexivity. }
  intros [= <- <-]. exists []. apply eq_sym, app_nil_r.
Qed.

Lemma forLoop_cons (e : StructuralElement) (rest : list StructuralElement)
    (i : nat) (st st' : LoopState) (σ σ' : Store) :
  loopBody inlineObjects content i e st σ = (Normal st', σ') →
  forLoop inlineObjects content (e :: rest) i st σ =
  forLoop inlineObjects content rest (S i) st' σ'.
Proof. intros Hbody. simpl. apply (bind_Normal _ _ _ _ _ Hbody). Qed.

Lemma forLoop_app (pre post : list StructuralElement)
    (i : nat) (st st' : LoopState) (σ σ' : Store) :
  forLoop inlineObjects content pre i st σ = (Normal st', σ') →
  forLoop inlineObjects content (pre ++ post) i st σ =
  forLoop inlineObjects content post (i + length pre) st' σ'.
Proof.
  revert i st σ. induction pre as [|e pre IH]; intros i st σ Hpre; simpl in *.
  - injection Hpre as <- <-. rewrite Nat.add_0_r. reflexivity.
  - unfold bind in *.
    destruct (loopBody inlineObjects content i e st σ) as [[st1|t] σ1]; [|discriminate].
    rewrite (IH _ _ _ Hpre). f_equal. lia.
Qed.

(** A fault of a delegated handler is the fault of the iteration. *)
Lemma loopBody_paragraph_fault (i : nat) (e : StructuralElement) (st : LoopState)
    (t : Js.Thrown) (σ : Store) :
  findStructuralElementType e σ = Normal (JStr "paragraph") →
  handleParagraph (paragraphCall inlineObjects content i e) σ = Throw t →
  loopBody inlineObjects content i e st σ = (Throw t, σ).
Proof.
  intros Hkind Hcall. unfold loopBody.
  rewrite (bind_reading_Normal _ _ _ _ Hkind). switch_on_kind.
  unfold paragraphCall in Hcall.
  apply (bind_reading_Throw _ _ _ _ Hcall).
Qed.

Lemma loopBody_table_fault (i : nat) (e : StructuralElement) (st : LoopState)
    (t : Js.Thrown) (σ : Store) :
  findStructuralElementType e σ = Normal (JStr "table") →
  handleTable (tableCall inlineObjects e) = Throw t →
  loopBody inlineObjects content i e st σ = (Throw t, σ).
Proof.
  intros Hkind Hcall. unfold loopBody.
  rewrite (bind_reading_Normal _ _ _ _ Hkind). switch_on_kind.
  unfold tableCall in Hcall.
  apply (bind_lift_Throw _ _ _ _ Hcall).
Qed.

(** A fault in one iteration ends the loop there. *)
Lemma forLoop_aborts (e : StructuralElement) (rest : list StructuralElement)
    (i : nat) (st : LoopState) (t : Js.Thrown) (σ σ' : Store) :
  loopBody inlineObjects content i e st σ = (Throw t, σ') →
  forLoop inlineObjects content (e :: rest) i st σ = (Throw t, σ').
Proof. intros Hbody. simpl. apply (bind_Throw _ _ _ _ _ Hbody). Qed.

(** The loop only ever appends to [requests]. *)
Lemma forLoop_extends (rest : list StructuralElement) (i : nat)
    (st st' : LoopState) (σ σ' : Store) :
  forLoop inlineObjects content rest i st σ = (Normal st', σ') →
  ∃ more, requests st' = requests st ++ more.
Proof.
  revert i st σ. induction rest as [|e rest IH]; intros i st σ Hloop; simpl in Hloop.
  - injection Hloop as <- <-. exists []. apply eq_sym, app_nil_r.
  - unfold bind in Hloop.
    destruct (loopBody inlineObjects content i e st σ) as [[st1|t] σ1] eqn:Hbody;
      [|discriminate].
    destruct (loopBody_extends _ _ _ _ _ _ Hbody) as [m1 H1].
    destruct (IH _ _ _ Hloop) as [m2 H2].
    exists (m1 ++ m2). rewrite H2, H1. apply eq_sym, app_assoc.
Qed.

End LoopFacts.

(** ** The whole pass *)

Section PassFacts.
Context {E : Collaborators}.

Lemma tryBlock_run (d : Document) (elements : list StructuralElement)
    (size orientation margins : Request) (σ : Store) :
  contentOf d = Some elements →
  PageStyle d size orientation margins →
  tryBlock d σ =
    (let* final := forLoop (inlineObjects d) elements elements 0
                     (initialState size orientation margins) in
     ret (requests final)) σ.
Proof.
  unfold contentOf. intros Hcontent (Hsize & Horientation & Hmargins).
  unfold tryBlock.
  destruct (body d) as [b|]; [|discriminate]. simpl in Hcontent.
  rewrite bind_ret.
  unfold pageSizeOf in Hsize. rewrite (bind_lift_Normal _ _ _ _ Hsize).
  unfold pageMarginsOf in Hmargins. rewrite (bind_lift_Normal _ _ _ _ Hmargins).
  unfold orientationOf in Horientation. rewrite (bind_lift_Normal _ _ _ _ Horientation).
  rewrite Hcontent, bind_ret. reflexivity.
Qed.

(** The pass completes normally only if the page-style emitters did and
    [content] was there; the returned list is then the final [requests]. *)
Lemma tryBlock_Normal_inv (d : Document) (out : list Request) (σ σ' : Store) :
  tryBlock d σ = (Normal out, σ') →
  ∃ elements size orientation margins final,
    contentOf d = Some elements
    ∧ PageStyle d size orientation margins
    ∧ forLoop (inlineObjects d) elements elements 0
        (initialState size orientation margins) σ = (Normal final, σ')
    ∧ out = requests final.
Proof.
  unfold tryBlock, contentOf, PageStyle, pageSizeOf, pageMarginsOf, orientationOf.
  destruct (body d) as [b|]; [|discriminate]. rewrite bind_ret.
  unfold bind at 1, lift at 1.
  destruct (changePageDimensions _) as [size|t]; [|discriminate].
  unfold bind at 1, lift at 1.
  destruct (changePageMargins _) as [margins|t]; [|discriminate].
  unfold bind at 1, lift at 1.
  destruct (changePageOrientation _) as [orientation|t]; [|discriminate].
  simpl. destruct (content b) as [elements|]; [|discriminate].
  rewrite bind_ret. unfold bind, ret.
  destruct (forLoop _ _ _ _ _ σ) as [[final|t] σ1] eqn:Hloop; [|discriminate].
  intros [= <- <-].
  exists elements, size, orientation, margins, final. auto.
Qed.

Lemma jsonToBatchUpdateRequest_Normal (d : Document) (out : list Request) (σ σ' : Store) :
  tryBlock d σ = (Normal out, σ') →
  jsonToBatchUpdateRequest d σ = {| returned := Some out; console := []; store := σ' |}.
Proof. unfold jsonToBatchUpdateRequest. intros ->. reflexivity. Qed.

Lemma jsonToBatchUpdateRequest_returned (d : Document) (out : list Request) (σ : Store) :
  returned (jsonToBatchUpdateRequest d σ) = Some out →
  ∃ σ', tryBlock d σ = (Normal out, σ').
Proof.
  unfold jsonToBatchUpdateRequest.
  destruct (tryBlock d σ) as [[rs|t] σ']; simpl; [|discriminate].
  intros [= ->]. exists σ'. reflexivity.
Qed.

(** When the loop runs to its end, the pass returns the accumulated list
    as it stands. *)
Lemma pass_returns_requests (d : Document) (elements : list StructuralElement)
    (size orientation margins : Request) (final : LoopState) (σ σ' : Store) :
  contentOf d = Some elements →
  PageStyle d size orientation margins →
  forLoop (inlineObjects d) elements elements 0
    (initialState size orientation margins) σ = (Normal final, σ') →
  jsonToBatchUpdateRequest d σ =
    {| returned := Some (requests final); console := []; store := σ' |}.
Proof.
  intros Hcontent Hpage Hloop. apply jsonToBatchUpdateRequest_Normal.
  rewrite (tryBlock_run d elements size orientation margins σ Hcontent Hpage).
  rewrite (bind_Normal _ _ _ _ _ Hloop). reflexivity.
Qed.

End PassFacts.

(** ** The pending newline style *)

Lemma strictEqStr_true (v : JsVal) (s : string) :
  Js.strictEqStr v s = true → v = JStr s.
Proof.
  destruct v; simpl; try discriminate.
  intros Heq. apply String.eqb_eq in Heq. congruence.
Qed.

Section PendingNewline.
Context {E : Collaborators}.

Variables (inlineObjects : JsVal) (content : list StructuralElement).

(** Such an element neither reads nor writes the slot. *)
Lemma loopBody_carries (p : option Request) (i : nat) (e : StructuralElement)
    (st : LoopState) (σ : Store) :
  NeitherParagraphNorTable e →
  loopBody inlineObjects content i e (withPending p st) σ =
  carrying p (loopBody inlineObjects content i e st σ).
Proof.
  intros Hkind. destruct (Hkind σ) as [Hp Ht].
  unfold loopBody, bind, reading, lift, ret, carrying.
  destruct (findStructuralElementType e σ) as [kind|t]; [|reflexivity].
  destruct (Js.strictEqStr kind "paragraph") eqn:Hkp.
  { apply strictEqStr_true in Hkp. subst kind. contradiction. }
  destruct (Js.strictEqStr kind "sectionBreak").
  { destruct (handleSectionBreak _ _ _ σ) as [[cmds|t] σ']; reflexivity. }
  destruct (Js.strictEqStr kind "table") eqn:Hkt.
  { apply strictEqStr_true in Hkt. subst kind. contradiction. }
  reflexivity.
Qed.

Lemma forLoop_carries (p : option Request) (rest : list StructuralElement) (i : nat)
    (st : LoopState) (σ : Store) :
  Forall NeitherParagraphNorTable rest →
  forLoop inlineObjects content rest i (withPending p st) σ =
  carrying p (forLoop inlineObjects content rest i st σ).
Proof.
  intros Hrest. revert i st σ.
  induction Hrest as [|e rest He Hrest IH]; intros i st σ; simpl.
  - reflexivity.
  - unfold bind. rewrite (loopBody_carries p i e st σ He).
    destruct (loopBody inlineObjects content i e st σ) as [[st1|t] σ1]; simpl.
    + apply IH.
    + reflexivity.
Qed.

End PendingNewline.

(** ** The claims about the traversal *)

Section Traversal.
Context {E : Collaborators}.

(** C3. For a document whose content is a paragraph followed by a table,
    where the paragraph handler returns a pending newline style, the loop
    ends with the fixed prefix, the paragraph's commands, all of the
    table's commands and only then the pending newline style, and with the
    pending slot back to [null]; that list is what the pass returns. *)
Theorem paragraph_then_table (d : Document) (P T : StructuralElement)
    (size orientation margins : Request)
    (cmdsP cmdsT : list Request) (pending : Request) (σ : Store) :
  contentOf d = Some [P; T] →
  PageStyle d size orientation margins →
  findStructuralElementType P σ = Normal (JStr "paragraph") →
  findStructuralElementType T σ = Normal (JStr "table") →
  handleParagraph (paragraphCall (inlineObjects d) [P; T] 0 P) σ =
    Normal {| insertParagraphElementRequests := cmdsP;
              stylesForNewlineBeforeTable := Some pending |} →
  handleTable (tableCall (inlineObjects d) T) = Normal cmdsT →
  forLoop (inlineObjects d) [P; T] [P; T] 0 (initialState size orientation margins) σ =
    (Normal {| requests :=
                 initialRequests size orientation margins ++ cmdsP ++ cmdsT ++ [pending];
               newLineStyleUpdatesForAfterTableInsertion := None |}, σ)
  ∧ jsonToBatchUpdateRequest d σ =
      {| returned :=
           Some (initialRequests size orientation margins ++ cmdsP ++ cmdsT ++ [pending]);
         console := []; store := σ |}.
Proof.
  intros Hcontent Hpage HkP HkT HP HT.
  assert (Hloop :
    forLoop (inlineObjects d) [P; T] [P; T] 0 (initialState size orientation margins) σ =
      (Normal {| requests :=
                   initialRequests size orientation margins ++ cmdsP ++ cmdsT ++ [pending];
                 newLineStyleUpdatesForAfterTableInsertion := None |}, σ)).
  { rewrite (forLoop_cons _ _ _ _ _ _ _ _ _ (loopBody_paragraph _ _ _ _ _ _ _ HkP HP)).
    rewrite (forLoop_cons _ _ _ _ _ _ _ _ _ (loopBody_table _ _ _ _ _ _ _ HkT HT)).
    reflexivity. }
  split; [exact Hloop|].
  apply (pass_returns_requests d [P; T] size orientation margins _ σ σ Hcontent Hpage Hloop).
Qed.

(** The loop passes over elements of unsupported kinds without a trace. *)
Lemma forLoop_skips (inlineObjects : JsVal) (content rest : list StructuralElement)
    (i : nat) (st : LoopState) (σ : Store) :
  Forall Unsupported rest →
  forLoop inlineObjects content rest i st σ = (Normal st, σ).
Proof.
  intros Hrest. revert i.
  induction Hrest as [|e rest He Hrest IH]; intros i; [reflexivity|].
  destruct (He σ) as (kind & Hkind & Hp & Hs & Ht).
  rewrite (forLoop_cons _ _ _ _ _ _ _ _ _
             (loopBody_skip inlineObjects content i e st kind σ Hkind Hp Hs Ht)).
  apply IH.
Qed.

(** C6. Whenever the pass returns a list, the list begins with the two
    newline-shrink commands (font size 1 PT, then line spacing 0.06 with no
    space above or below, both over the range from 1 to 2 of the root
    segment) followed by the page-size, orientation and margin commands, in
    that order, before anything the loop appended; and on a document whose
    content has no element, or only elements of unsupported kinds, the pass
    does return, and returns those five commands and no other. *)
Theorem fixed_prefix_first (d : Document) (σ : Store) :
  let onePoint := JObj [("magnitude", JNum 1); ("unit", JStr "PT")] in
  let zeroPoints := JObj [("magnitude", JNum 0); ("unit", JStr "PT")] in
  let firstCharacter :=
    {| range_startIndex := JNum 1; range_endIndex := JNum 2; range_segmentId := "" |} in
  let shrinkFont := updateTextStyle [("fontSize", onePoint)] "fontSize" firstCharacter in
  let shrinkSpacing :=
    updateParagraphStyle
      [("lineSpacing", JNum 0.06); ("spaceAbove", zeroPoints); ("spaceBelow", zeroPoints)]
      "lineSpacing,spaceAbove,spaceBelow" firstCharacter in
  (∀ out, returned (jsonToBatchUpdateRequest d σ) = Some out →
     ∃ size orientation margins structural,
       PageStyle d size orientation margins
       ∧ out = [shrinkFont; shrinkSpacing; size; orientation; margins] ++ structural)
  ∧ (∀ elements size orientation margins,
       PageStyle d size orientation margins →
       contentOf d = Some elements →
       Forall Unsupported elements →
       jsonToBatchUpdateRequest d σ =
         {| returned := Some [shrinkFont; shrinkSpacing; size; orientation; margins];
            console := []; store := σ |}).
Proof.
  cbv zeta. split.
  - intros out Hout.
    destruct (jsonToBatchUpdateRequest_returned d out σ Hout) as [σ' Hrun].
    destruct (tryBlock_Normal_inv d out σ σ' Hrun)
      as (elements & size & orientation & margins & final & _ & Hpage & Hloop & ->).
    destruct (forLoop_extends _ _ _ _ _ _ _ _ Hloop) as [structural Hmore].
    exists size, orientation, margins, structural. split; [exact Hpage|].
    rewrite Hmore. reflexivity.
  - intros elements size orientation margins Hpage Hcontent Hkinds.
    apply (pass_returns_requests d elements size orientation margins
             (initialState size orientation margins) σ σ Hcontent Hpage).
    apply (forLoop_skips _ _ _ _ _ _ Hkinds).
Qed.

(** C7. Two tables in a row, anywhere in the sequence and whatever the
    slot holds on arrival: the first table appends its commands and then
    the pending newline style, if there is one, and leaves the slot
    [null]; the second table appends its own commands and nothing else. *)
Theorem consecutive_tables (inlineObjects : JsVal) (content rest : list StructuralElement)
    (i : nat) (T1 T2 : StructuralElement) (st : LoopState)
    (cmds1 cmds2 : list Request) (σ : Store) :
  findStructuralElementType T1 σ = Normal (JStr "table") →
  findStructuralElementType T2 σ = Normal (JStr "table") →
  handleTable (tableCall inlineObjects T1) = Normal cmds1 →
  handleTable (tableCall inlineObjects T2) = Normal cmds2 →
  let afterFirst :=
    {| requests := requests st ++ cmds1
                     ++ option_list (newLineStyleUpdatesForAfterTableInsertion st);
       newLineStyleUpdatesForAfterTableInsertion := None |} in
  let afterSecond :=
    {| requests := requests afterFirst ++ cmds2;
       newLineStyleUpdatesForAfterTableInsertion := None |} in
  loopBody inlineObjects content i T1 st σ = (Normal afterFirst, σ)
  ∧ loopBody inlineObjects content (S i) T2 afterFirst σ = (Normal afterSecond, σ)
  ∧ forLoop inlineObjects content (T1 :: T2 :: rest) i st σ =
    forLoop inlineObjects content rest (S (S i)) afterSecond σ.
Proof.
  intros Hk1 Hk2 H1 H2 afterFirst afterSecond.
  pose proof (loopBody_table inlineObjects content i T1 st cmds1 σ Hk1 H1) as Hfirst.
  pose proof (loopBody_table inlineObjects content (S i) T2 afterFirst cmds2 σ Hk2 H2)
    as Hsecond.
  simpl in Hsecond. rewrite app_nil_r in Hsecond.
  split; [exact Hfirst|]. split; [exact Hsecond|].
  rewrite (forLoop_cons _ _ _ _ _ _ _ _ _ Hfirst).
  apply (forLoop_cons _ _ _ _ _ _ _ _ _ Hsecond).
Qed.

(** C8. An element whose kind is none of ["paragraph"], ["sectionBreak"]
    and ["table"] leaves the loop variables and the store as they are and
    throws nothing; the loop goes on with the next element. *)
Theorem unsupported_kind_skipped (inlineObjects : JsVal)
    (content rest : list StructuralElement) (i : nat) (e : StructuralElement)
    (kind : JsVal) (st : LoopState) (σ : Store) :
  findStructuralElementType e σ = Normal kind →
  kind ≠ JStr "paragraph" → kind ≠ JStr "sectionBreak" → kind ≠ JStr "table" →
  loopBody inlineObjects content i e st σ = (Normal st, σ)
  ∧ forLoop inlineObjects content (e :: rest) i st σ =
    forLoop inlineObjects content rest (S i) st σ.
Proof.
  intros Hkind Hp Hs Ht.
  pose proof (loopBody_skip inlineObjects content i e st kind σ Hkind Hp Hs Ht) as Hskip.
  split; [exact Hskip|].
  apply (forLoop_cons _ _ _ _ _ _ _ _ _ Hskip).
Qed.

End Traversal.

Section Carry.
Context {E : Collaborators}.

(** C9. When the last paragraph of the sequence returns a pending newline
    style and only elements that are neither paragraphs nor tables come
    after it, the loop ends with that style still in the slot, the pass
    returns normally and logs nothing, and the returned list is the one
    the same run builds with an empty slot: the pending style is not in
    it. *)
Theorem trailing_pending_dropped (d : Document) (pre post : list StructuralElement)
    (P : StructuralElement) (size orientation margins : Request)
    (afterPre final : LoopState) (cmdsP : list Request) (pending : Request)
    (σ σ1 σ2 : Store) :
  let elements := pre ++ P :: post in
  contentOf d = Some elements →
  PageStyle d size orientation margins →
  forLoop (inlineObjects d) elements pre 0 (initialState size orientation margins) σ =
    (Normal afterPre, σ1) →
  findStructuralElementType P σ1 = Normal (JStr "paragraph") →
  handleParagraph (paragraphCall (inlineObjects d) elements (length pre) P) σ1 =
    Normal {| insertParagraphElementRequests := cmdsP;
              stylesForNewlineBeforeTable := Some pending |} →
  Forall NeitherParagraphNorTable post →
  forLoop (inlineObjects d) elements post (S (length pre))
    {| requests := requests afterPre ++ cmdsP;
       newLineStyleUpdatesForAfterTableInsertion := None |} σ1 = (Normal final, σ2) →
  forLoop (inlineObjects d) elements elements 0 (initialState size orientation margins) σ =
    (Normal (withPending (Some pending) final), σ2)
  ∧ jsonToBatchUpdateRequest d σ =
      {| returned := Some (requests final); console := []; store := σ2 |}.
Proof.
  intros elements Hcontent Hpage Hpre HkP HP Hpost Hrest.
  assert (Hloop :
    forLoop (inlineObjects d) elements elements 0 (initialState size orientation margins) σ =
      (Normal (withPending (Some pending) final), σ2)).
  { unfold elements at 2.
    rewrite (forLoop_app _ _ _ _ _ _ _ _ _ Hpre). simpl plus.
    rewrite (forLoop_cons _ _ _ _ _ _ _ _ _ (loopBody_paragraph _ _ _ _ _ _ _ HkP HP)).
    simpl insertParagraphElementRequests. simpl stylesForNewlineBeforeTable.
    change {| requests := requests afterPre ++ cmdsP;
              newLineStyleUpdatesForAfterTableInsertion := Some pending |}
      with (withPending (Some pending)
              {| requests := requests afterPre ++ cmdsP;
                 newLineStyleUpdatesForAfterTableInsertion := None |}).
    rewrite (forLoop_carries _ _ _ _ _ _ _ Hpost), Hrest. reflexivity. }
  split; [exact Hloop|].
  apply (pass_returns_requests d elements size orientation margins _ σ σ2
           Hcontent Hpage Hloop).
Qed.


End Carry.

(** ** The fault boundary *)

Section FaultBoundary.
Context {E : Collaborators}.

(** A document without [body], or whose body has no [content], makes the
    [try] block throw. *)
Lemma absent_content_throws (d : Document) (σ : Store) :
  contentOf d = None → ∃ t σ', tryBlock d σ = (Throw t, σ').
Proof.
  unfold contentOf, tryBlock. intros Habsent.
  destruct (body d) as [b|]; [|eexists _, _; reflexivity].
  simpl in Habsent. rewrite bind_ret. unfold bind, lift.
  destruct (changePageDimensions _); [|eexists _, _; reflexivity].
  destruct (changePageMargins _); [|eexists _, _; reflexivity].
  destruct (changePageOrientation _); [|eexists _, _; reflexivity].
  rewrite Habsent. eexists _, _; reflexivity.
Qed.

(** With the page-style emitters completing normally, the fault of an
    absent [content] is a [TypeError], logged on one line. *)
Lemma absent_content_logged (d : Document) (b : Body)
    (size orientation margins : Request) (σ : Store) :
  body d = Some b → content b = None →
  PageStyle d size orientation margins →
  jsonToBatchUpdateRequest d σ =
    {| returned := None;
       console :=
         [logLine {| Js.name := "TypeError";
                     Js.message := "Cannot read properties of undefined (reading 'length')";
                     Js.stack := "" |}];
       store := σ |}.
Proof.
  intros Hbody Hcontent (Hsize & Horientation & Hmargins).
  unfold jsonToBatchUpdateRequest, tryBlock. rewrite Hbody, bind_ret.
  unfold pageSizeOf in Hsize. rewrite (bind_lift_Normal _ _ _ _ Hsize).
  unfold pageMarginsOf in Hmargins. rewrite (bind_lift_Normal _ _ _ _ Hmargins).
  unfold orientationOf in Horientation. rewrite (bind_lift_Normal _ _ _ _ Horientation).
  rewrite Hcontent, bind_throw. reflexivity.
Qed.

(** A fault in the middle of the traversal discards what the loop had
    accumulated: nothing of it is returned. *)
Lemma fault_mid_traversal (d : Document) (pre post : list StructuralElement)
    (e : StructuralElement) (size orientation margins : Request)
    (afterPre : LoopState) (t : Js.Thrown) (σ σ1 σ2 : Store) :
  contentOf d = Some (pre ++ e :: post) →
  PageStyle d size orientation margins →
  forLoop (inlineObjects d) (pre ++ e :: post) pre 0
    (initialState size orientation margins) σ = (Normal afterPre, σ1) →
  loopBody (inlineObjects d) (pre ++ e :: post) (length pre) e afterPre σ1 = (Throw t, σ2) →
  tryBlock d σ = (Throw t, σ2).
Proof.
  intros Hcontent Hpage Hpre Hbody.
  rewrite (tryBlock_run d _ size orientation margins σ Hcontent Hpage).
  apply bind_Throw.
  rewrite (forLoop_app _ _ _ _ _ _ _ _ _ Hpre). simpl plus.
  apply (forLoop_aborts _ _ _ _ _ _ _ _ _ Hbody).
Qed.

(** C5, as the code has it. Whenever a step of the pass throws, the call
    returns [undefined], never a list; it writes exactly one line to the
    console when the thrown value is an [Error] instance, and none when it
    is any other value. *)
Theorem fault_boundary (d : Document) (σ σ' : Store) (t : Js.Thrown) :
  tryBlock d σ = (Throw t, σ') →
  returned (jsonToBatchUpdateRequest d σ) = None
  ∧ console (jsonToBatchUpdateRequest d σ) =
      match t with
      | Js.ThrowError e => [logLine e]
      | Js.ThrowValue _ => []
      end
  ∧ length (console (jsonToBatchUpdateRequest d σ)) =
      (if Js.instanceofError t then 1 else 0).
Proof.
  intros Hthrow. unfold jsonToBatchUpdateRequest. rewrite Hthrow. simpl.
  destruct t; auto.
Qed.

End FaultBoundary.

(** ** The pass on sample documents *)

(** C1. On a section break at start index 5 whose style has [sectionType]
    ["SECTION_TYPE_UNSPECIFIED"], the handler returns an insertion whose
    type is [undefined], not ["CONTINUOUS"]: the style has lost
    [sectionType] in the store by the time the type is read back from it. *)
Theorem unspecified_type_is_lost :
  Js.get "sectionType" Script.unspecifiedStyle = JStr "SECTION_TYPE_UNSPECIFIED"
  ∧ Js.strictEqNum (Js.nullish (JNum 5) (JNum 0)) 0 = false
  ∧ handleSectionBreak (E := Script.collaborators)
      (Some {| sectionStyle := Some 7 |}) (JNum 5) (JNum 6) Script.heap =
    (Normal
       [ insertSectionBreak JUndefined (location "" (JNum 5));
         updateSectionStyle 7
           {| range_startIndex := JNum 5; range_endIndex := JNum 6; range_segmentId := "" |}
           "contentDirection" ],
     <[7 := [("contentDirection", JStr "LEFT_TO_RIGHT")]]> Script.heap).
Proof.
  split; [reflexivity|]. split; [reflexivity|].
  apply (handleSectionBreak_nonzero_untyped (E := Script.collaborators)
           {| sectionStyle := Some 7 |} 7 Script.unspecifiedStyle);
    reflexivity.
Qed.

(** C2. On a document that consists of its opening section break, the pass
    returns a list and leaves the store changed: the section style the
    document refers to no longer has its [sectionType]. *)
Theorem section_style_is_mutated :
  let d := Script.documentOf (Some [Script.opening]) in
  let after := jsonToBatchUpdateRequest (E := Script.collaborators) d Script.heap in
  is_Some (returned after)
  ∧ Script.heap !! 0 = Some Script.openingStyle
  ∧ store after !! 0 =
      Some [ ("columnSeparatorStyle", JStr "NONE"); ("contentDirection", JStr "LEFT_TO_RIGHT") ]
  ∧ store after ≠ Script.heap.
Proof.
  cbv zeta. split; [vm_compute; eauto|]. split; [reflexivity|]. split; [reflexivity|].
  intros Heq. apply (f_equal (lookup 0)) in Heq. vm_compute in Heq. discriminate.
Qed.

(** C5, as stated, fails: a table handler that throws a value which is not
    an [Error] instance aborts the pass and nothing is logged. *)
Lemma silent_fault :
  ¬ (∀ (E : Collaborators) (d : Document) (σ σ' : Store) (t : Js.Thrown),
       tryBlock d σ = (Throw t, σ') →
       returned (jsonToBatchUpdateRequest d σ) = None
       ∧ length (console (jsonToBatchUpdateRequest d σ)) = 1).
Proof.
  intros Hclaim.
  destruct (Hclaim Script.collaborators (Script.documentOf (Some [Script.faulty])) ∅ ∅
              (Js.ThrowValue (JNum 1)) eq_refl) as [_ Hlogged].
  vm_compute in Hlogged. discriminate.
Qed.

(** ** The theorems at sample documents *)

Lemma absent_start_bootstraps_witness :
  handleSectionBreak (E := Script.collaborators)
    (Some {| sectionStyle := Some 0 |}) JUndefined (JNum 1) Script.heap =
    (Normal
       [ insertSectionBreak (JStr "CONTINUOUS") (endOfSegmentLocation "");
         updateSectionStyle 0
           {| range_startIndex := JNum 0; range_endIndex := JNum 1; range_segmentId := "" |}
           (String.concat "," (maskFields (Js.delete "sectionType" Script.openingStyle))) ],
     <[0 := Js.delete "sectionType" Script.openingStyle]> Script.heap)
  ∧ ¬ In "sectionType" (maskFields (Js.delete "sectionType" Script.openingStyle)).
Proof.
  apply (absent_start_bootstraps (E := Script.collaborators)
           {| sectionStyle := Some 0 |} 0 Script.openingStyle JUndefined (JNum 1) Script.heap).
  - reflexivity.
  - reflexivity.
  - reflexivity.
  - intros o. reflexivity.
Defined.

Lemma paragraph_then_table_witness :
  let d := Script.documentOf (Some [Script.intro; Script.grid]) in
  let out := initialRequests Script.sizeReq Script.orientationReq Script.marginsReq
               ++ Script.introCmds ++ Script.gridCmds ++ [Script.introPending] in
  forLoop (E := Script.collaborators) (inlineObjects d)
    [Script.intro; Script.grid] [Script.intro; Script.grid] 0
    (initialState Script.sizeReq Script.orientationReq Script.marginsReq) ∅ =
    (Normal {| requests := out; newLineStyleUpdatesForAfterTableInsertion := None |}, ∅)
  ∧ jsonToBatchUpdateRequest (E := Script.collaborators) d ∅ =
      {| returned := Some out; console := []; store := ∅ |}.
Proof.
  apply (paragraph_then_table (E := Script.collaborators)
           (Script.documentOf (Some [Script.intro; Script.grid])) Script.intro Script.grid
           Script.sizeReq Script.orientationReq Script.marginsReq
           Script.introCmds Script.gridCmds Script.introPending ∅).
  - reflexivity.
  - repeat split; reflexivity.
  - reflexivity.
  - reflexivity.
  - reflexivity.
  - reflexivity.
Defined.

Lemma fault_boundary_witness :
  let d := Script.documentOf (Some [Script.faulty]) in
  returned (jsonToBatchUpdateRequest (E := Script.collaborators) d ∅) = None
  ∧ console (jsonToBatchUpdateRequest (E := Script.collaborators) d ∅) = []
  ∧ length (console (jsonToBatchUpdateRequest (E := Script.collaborators) d ∅)) = 0.
Proof.
  apply (fault_boundary (E := Script.collaborators)
           (Script.documentOf (Some [Script.faulty])) ∅ ∅ (Js.ThrowValue (JNum 1))).
  reflexivity.
Defined.

Lemma fixed_prefix_first_witness :
  let onePoint := JObj [("magnitude", JNum 1); ("unit", JStr "PT")] in
  let zeroPoints := JObj [("magnitude", JNum 0); ("unit", JStr "PT")] in
  let firstCharacter :=
    {| range_startIndex := JNum 1; range_endIndex := JNum 2; range_segmentId := "" |} in
  let shrinkFont := updateTextStyle [("fontSize", onePoint)] "fontSize" firstCharacter in
  let shrinkSpacing :=
    updateParagraphStyle
      [("lineSpacing", JNum 0.06); ("spaceAbove", zeroPoints); ("spaceBelow", zeroPoints)]
      "lineSpacing,spaceAbove,spaceBelow" firstCharacter in
  (∃ size orientation margins structural,
     PageStyle (E := Script.collaborators)
       (Script.documentOf (Some [Script.intro; Script.grid])) size orientation margins
     ∧ [shrinkFont; shrinkSpacing; Script.sizeReq; Script.orientationReq; Script.marginsReq]
         ++ Script.introCmds ++ Script.gridCmds ++ [Script.introPending] =
       [shrinkFont; shrinkSpacing; size; orientation; margins] ++ structural)
  ∧ jsonToBatchUpdateRequest (E := Script.collaborators)
      (Script.documentOf (Some [Script.toc; Script.toc])) ∅ =
      {| returned := Some [shrinkFont; shrinkSpacing;
                           Script.sizeReq; Script.orientationReq; Script.marginsReq];
         console := []; store := ∅ |}.
Proof.
  cbv zeta. split.
  - apply (proj1 (fixed_prefix_first (E := Script.collaborators)
                    (Script.documentOf (Some [Script.intro; Script.grid])) ∅)).
    reflexivity.
  - apply (proj2 (fixed_prefix_first (E := Script.collaborators)
                    (Script.documentOf (Some [Script.toc; Script.toc])) ∅)
             [Script.toc; Script.toc]).
    + repeat split; reflexivity.
    + reflexivity.
    + repeat constructor; intros σ; exists (JStr "tableOfContents");
        repeat split; try reflexivity; discriminate.
Defined.

Lemma consecutive_tables_witness :
  let st := {| requests := Script.introCmds;
               newLineStyleUpdatesForAfterTableInsertion := Some Script.introPending |} in
  let afterFirst :=
    {| requests := Script.introCmds ++ Script.gridCmds ++ [Script.introPending];
       newLineStyleUpdatesForAfterTableInsertion := None |} in
  let afterSecond :=
    {| requests := requests afterFirst ++ Script.gridCmds';
       newLineStyleUpdatesForAfterTableInsertion := None |} in
  let content := [Script.intro; Script.grid; Script.grid'; Script.toc] in
  loopBody (E := Script.collaborators) (JObj []) content 1 Script.grid st ∅ =
    (Normal afterFirst, ∅)
  ∧ loopBody (E := Script.collaborators) (JObj []) content 2 Script.grid' afterFirst ∅ =
    (Normal afterSecond, ∅)
  ∧ forLoop (E := Script.collaborators) (JObj []) content
      [Script.grid; Script.grid'; Script.toc] 1 st ∅ =
    forLoop (E := Script.collaborators) (JObj []) content [Script.toc] 3 afterSecond ∅.
Proof.
  apply (consecutive_tables (E := Script.collaborators) (JObj [])
           [Script.intro; Script.grid; Script.grid'; Script.toc] [Script.toc] 1
           Script.grid Script.grid'
           {| requests := Script.introCmds;
              newLineStyleUpdatesForAfterTableInsertion := Some Script.introPending |}
           Script.gridCmds Script.gridCmds' ∅).
  - reflexivity.
  - reflexivity.
  - reflexivity.
  - reflexivity.
Defined.

Lemma unsupported_kind_skipped_witness :
  let st := {| requests := Script.introCmds;
               newLineStyleUpdatesForAfterTableInsertion := Some Script.introPending |} in
  loopBody (E := Script.collaborators) (JObj []) [Script.toc; Script.grid] 0 Script.toc st ∅ =
    (Normal st, ∅)
  ∧ forLoop (E := Script.collaborators) (JObj []) [Script.toc; Script.grid]
      [Script.toc; Script.grid] 0 st ∅ =
    forLoop (E := Script.collaborators) (JObj []) [Script.toc; Script.grid]
      [Script.grid] 1 st ∅.
Proof.
  apply (unsupported_kind_skipped (E := Script.collaborators) (JObj [])
           [Script.toc; Script.grid] [Script.grid] 0 Script.toc (JStr "tableOfContents")
           {| requests := Script.introCmds;
              newLineStyleUpdatesForAfterTableInsertion := Some Script.introPending |} ∅).
  - reflexivity.
  - discriminate.
  - discriminate.
  - discriminate.
Defined.

Lemma trailing_pending_dropped_witness :
  let elements := [Script.plain] ++ Script.intro :: [Script.toc] in
  let d := Script.documentOf (Some elements) in
  let final :=
    {| requests := (initialRequests Script.sizeReq Script.orientationReq Script.marginsReq
                      ++ Script.plainCmds) ++ Script.introCmds;
       newLineStyleUpdatesForAfterTableInsertion := None |} in
  forLoop (E := Script.collaborators) (inlineObjects d) elements elements 0
    (initialState Script.sizeReq Script.orientationReq Script.marginsReq) ∅ =
    (Normal (withPending (Some Script.introPending) final), ∅)
  ∧ jsonToBatchUpdateRequest (E := Script.collaborators) d ∅ =
      {| returned := Some (requests final); console := []; store := ∅ |}.
Proof.
  apply (trailing_pending_dropped (E := Script.collaborators)
           (Script.documentOf (Some ([Script.plain] ++ Script.intro :: [Script.toc])))
           [Script.plain] [Script.toc] Script.intro
           Script.sizeReq Script.orientationReq Script.marginsReq
           {| requests := initialRequests Script.sizeReq Script.orientationReq Script.marginsReq
                            ++ Script.plainCmds;
              newLineStyleUpdatesForAfterTableInsertion := None |}
           {| requests := (initialRequests Script.sizeReq Script.orientationReq Script.marginsReq
                             ++ Script.plainCmds) ++ Script.introCmds;
              newLineStyleUpdatesForAfterTableInsertion := None |}
           Script.introCmds Script.introPending ∅ ∅ ∅).
  - reflexivity.
  - repeat split; reflexivity.
  - reflexivity.
  - reflexivity.
  - reflexivity.
  - repeat constructor; discriminate.
  - reflexivity.
Defined.



(** ** More on the section-break handler *)

Lemma delete_idempotent (k : string) (o : Props) :
  Js.delete k (Js.delete k o) = Js.delete k o.
Proof.
  induction o as [|[k' v] o IH]; simpl; [reflexivity|].
  destruct (String.eqb k' k) eqn:Hk; simpl; [exact IH|].
  rewrite Hk. simpl. f_equal. exact IH.
Qed.

Lemma get_delete_other (k k' : string) (o : Props) :
  k' ≠ k → Js.get k' (Js.delete k o) = Js.get k' o.
Proof.
  intros Hne. induction o as [|[k0 v] o IH]; simpl; [reflexivity|].
  destruct (String.eqb k0 k) eqn:Hk; simpl.
  - apply String.eqb_eq in Hk. subst k0.
    destruct (String.eqb k k') eqn:Hk'; [|exact IH].
    apply String.eqb_eq in Hk'. congruence.
  - rewrite IH. reflexivity.
Qed.

Section SectionBreakCases.
Context {E : Collaborators}.

(** Every run of the handler: a [TypeError] and an untouched store when
    there is no style object to work on; otherwise the style is stripped
    first, and the outcome is that of the field-mask deriver. *)
Lemma handleSectionBreak_cases (sb : option SectionBreak) (start endIndex : JsVal) (σ : Store) :
  match styleOf sb σ with
  | None => ∃ msg, handleSectionBreak sb start endIndex σ = (Throw (Js.TypeError msg), σ)
  | Some (l, style) =>
      handleSectionBreak sb start endIndex σ =
        (match getStylingFieldMask (Js.delete "sectionType" style) with
         | Normal fields => Normal (sectionBreakPair l start endIndex fields)
         | Throw t => Throw t
         end,
         <[l := Js.delete "sectionType" style]> σ)
  end.
Proof.
  unfold styleOf. destruct sb as [element|]; simpl.
  2:{ eexists. reflexivity. }
  destruct (sectionStyle element) as [l|] eqn:Hstyle.
  2:{ eexists. unfold handleSectionBreak. rewrite bind_ret, Hstyle. reflexivity. }
  destruct (σ !! l) as [style|] eqn:Hl.
  2:{ eexists. unfold handleSectionBreak. rewrite bind_ret, Hstyle.
      unfold bind, deleteMember. rewrite Hl. reflexivity. }
  destruct (getStylingFieldMask (Js.delete "sectionType" style)) as [fields|t] eqn:Hmask.
  - rewrite (handleSectionBreak_run element l style start endIndex fields σ Hstyle Hl Hmask).
    reflexivity.
  - unfold handleSectionBreak. rewrite bind_ret, Hstyle.
    rewrite (bind_Normal _ _ _ _ _ (deleteMember_run l "sectionType" σ style Hl)).
    rewrite (bind_Normal _ _ _ _ _ (deref_insert l _ σ)).
    apply (bind_lift_Throw _ _ _ _ Hmask).
Qed.

Lemma handleSectionBreak_Normal_inv (sb : option SectionBreak) (start endIndex : JsVal)
    (cmds : list Request) (σ σ' : Store) :
  handleSectionBreak sb start endIndex σ = (Normal cmds, σ') →
  ∃ l style fields,
    styleOf sb σ = Some (l, style)
    ∧ getStylingFieldMask (Js.delete "sectionType" style) = Normal fields
    ∧ cmds = sectionBreakPair l start endIndex fields
    ∧ σ' = <[l := Js.delete "sectionType" style]> σ.
Proof.
  intros Hrun. pose proof (handleSectionBreak_cases sb start endIndex σ) as Hcases.
  destruct (styleOf sb σ) as [[l style]|].
  - rewrite Hrun in Hcases.
    destruct (getStylingFieldMask (Js.delete "sectionType" style)) as [fields|t] eqn:Hmask;
      [|discriminate].
    injection Hcases as -> ->. exists l, style, fields. auto.
  - destruct Hcases as [msg Hthrow]. congruence.
Qed.

Lemma styleOf_Some (sb : option SectionBreak) (σ : Store) (l : loc) (style : Props) :
  styleOf sb σ = Some (l, style) → sb ≫= sectionStyle = Some l ∧ σ !! l = Some style.
Proof.
  unfold styleOf. destruct (sb ≫= sectionStyle) as [l'|]; [|discriminate].
  destruct (σ !! l') as [style'|] eqn:Hl; [|discriminate].
  intros [= <- <-]. auto.
Qed.

End SectionBreakCases.

Section SectionBreakOutcomes.
Context {E : Collaborators}.

(** X1. Whenever the handler returns, it returns exactly two requests: an
    insertion and then a style update that refers to the element's own
    style object over the range from the resolved start index to the end
    index.  The insertion is ["CONTINUOUS"] at the end of the segment when
    the resolved start index is 0, and carries no type and sits at the start
    index otherwise.  The style object has no [sectionType] afterwards. *)
Theorem section_break_yields_pair (sb : option SectionBreak) (start endIndex : JsVal)
    (cmds : list Request) (σ σ' : Store) :
  handleSectionBreak sb start endIndex σ = (Normal cmds, σ') →
  ∃ l fields sectionType point,
    sb ≫= sectionStyle = Some l
    ∧ cmds =
        [ insertSectionBreak sectionType point;
          updateSectionStyle l
            {| range_startIndex := Js.nullish start (JNum 0);
               range_endIndex := endIndex; range_segmentId := "" |} fields ]
    ∧ ((Js.strictEqNum (Js.nullish start (JNum 0)) 0 = true
        ∧ sectionType = JStr "CONTINUOUS" ∧ point = endOfSegmentLocation "")
       ∨ (Js.strictEqNum (Js.nullish start (JNum 0)) 0 = false
          ∧ sectionType = JUndefined
          ∧ point = location "" (Js.nullish start (JNum 0))))
    ∧ Js.get "sectionType" <$> σ' !! l = Some JUndefined.
Proof.
  intros Hrun.
  destruct (handleSectionBreak_Normal_inv sb start endIndex cmds σ σ' Hrun)
    as (l & style & fields & Hstyle & _ & -> & ->).
  destruct (styleOf_Some sb σ l style Hstyle) as [Hl _].
  unfold sectionBreakPair, styleUpdate.
  destruct (Js.strictEqNum (Js.nullish start (JNum 0)) 0) eqn:Hzero.
  - exists l, fields, (JStr "CONTINUOUS"), (endOfSegmentLocation "").
    repeat split; auto.
    rewrite lookup_insert_eq. simpl. rewrite get_delete_same. reflexivity.
  - exists l, fields, JUndefined, (location "" (Js.nullish start (JNum 0))).
    repeat split; auto.
    rewrite lookup_insert_eq. simpl. rewrite get_delete_same. reflexivity.
Qed.

(** X3. The style is stripped before its field mask is derived: when the
    deriver throws, the handler throws the same value and the style object
    has already lost [sectionType]. *)
Theorem mask_fault_after_strip (element : SectionBreak) (l : loc) (style : Props)
    (start endIndex : JsVal) (t : Js.Thrown) (σ : Store) :
  sectionStyle element = Some l →
  σ !! l = Some style →
  getStylingFieldMask (Js.delete "sectionType" style) = Throw t →
  handleSectionBreak (Some element) start endIndex σ =
    (Throw t, <[l := Js.delete "sectionType" style]> σ).
Proof.
  intros Hstyle Hl Hmask.
  pose proof (handleSectionBreak_cases (Some element) start endIndex σ) as Hcases.
  unfold styleOf in Hcases. simpl in Hcases. rewrite Hstyle, Hl, Hmask in Hcases.
  exact Hcases.
Qed.

(** X4. Handling the same section break a second time changes nothing
    more: from the store the first call left, the handler returns the same
    requests and leaves that store as it is. *)
Theorem handleSectionBreak_twice (sb : option SectionBreak) (start endIndex : JsVal)
    (cmds : list Request) (σ σ' : Store) :
  handleSectionBreak sb start endIndex σ = (Normal cmds, σ') →
  handleSectionBreak sb start endIndex σ' = (Normal cmds, σ').
Proof.
  intros Hrun.
  destruct (handleSectionBreak_Normal_inv sb start endIndex cmds σ σ' Hrun)
    as (l & style & fields & Hstyle & Hmask & -> & ->).
  destruct (styleOf_Some sb σ l style Hstyle) as [Hl _].
  pose proof (handleSectionBreak_cases sb start endIndex
                (<[l := Js.delete "sectionType" style]> σ)) as Hcases.
  unfold styleOf in Hcases. rewrite Hl, lookup_insert_eq in Hcases.
  rewrite delete_idempotent, Hmask, insert_insert_eq in Hcases.
  exact Hcases.
Qed.

End SectionBreakOutcomes.

(** ** What the pass does to the store *)

Lemma StrippedFrom_refl (σ : Store) : StrippedFrom σ σ.
Proof. intros l. left. reflexivity. Qed.

Lemma StrippedFrom_trans (σ1 σ2 σ3 : Store) :
  StrippedFrom σ1 σ2 → StrippedFrom σ2 σ3 → StrippedFrom σ1 σ3.
Proof.
  intros H12 H23 l. destruct (H23 l) as [-> | ->], (H12 l) as [-> | ->]; auto.
  right. destruct (σ1 !! l) as [o|]; simpl; [|reflexivity].
  rewrite delete_idempotent. reflexivity.
Qed.

Lemma StrippedFrom_strip (σ : Store) (l : loc) (o : Props) :
  σ !! l = Some o → StrippedFrom σ (<[l := Js.delete "sectionType" o]> σ).
Proof.
  intros Hl l'. destruct (decide (l = l')) as [<- | Hne].
  - right. rewrite lookup_insert_eq, Hl. reflexivity.
  - left. apply lookup_insert_ne. exact Hne.
Qed.

Lemma StrippedFrom_untyped (σ σ' : Store) (l : loc) (o : Props) :
  StrippedFrom σ σ' → σ !! l = Some o → Js.get "sectionType" o = JUndefined →
  ∃ o', σ' !! l = Some o' ∧ Js.get "sectionType" o' = JUndefined.
Proof.
  intros Hstripped Hl Hget. destruct (Hstripped l) as [Heq | Heq]; rewrite Hl in Heq.
  - exists o. auto.
  - exists (Js.delete "sectionType" o). split; [exact Heq | apply get_delete_same].
Qed.

Section StoreFacts.
Context {E : Collaborators}.

Lemma handleSectionBreak_stripped (sb : option SectionBreak) (start endIndex : JsVal)
    (c : Completion (list Request)) (σ σ' : Store) :
  handleSectionBreak sb start endIndex σ = (c, σ') → StrippedFrom σ σ'.
Proof.
  intros Hrun. pose proof (handleSectionBreak_cases sb start endIndex σ) as Hcases.
  destruct (styleOf sb σ) as [[l style]|] eqn:Hstyle.
  - rewrite Hrun in Hcases. injection Hcases as _ ->.
    apply StrippedFrom_strip. apply (styleOf_Some sb σ l style Hstyle).
  - destruct Hcases as [msg Hthrow]. rewrite Hrun in Hthrow.
    injection Hthrow as _ ->. apply StrippedFrom_refl.
Qed.

Variables (inlineObjects : JsVal) (content : list StructuralElement).

Lemma loopBody_stripped (i : nat) (e : StructuralElement) (st : LoopState)
    (c : Completion LoopState) (σ σ' : Store) :
  loopBody inlineObjects content i e st σ = (c, σ') → StrippedFrom σ σ'.
Proof.
  unfold loopBody, bind, reading, lift, ret.
  destruct (findStructuralElementType e σ) as [kind|t].
  2:{ intros [= _ <-]. apply StrippedFrom_refl. }
  destruct (Js.strictEqStr kind "paragraph").
  { destruct (handleParagraph _ σ); intros [= _ <-]; apply StrippedFrom_refl. }
  destruct (Js.strictEqStr kind "sectionBreak").
  { destruct (handleSectionBreak _ _ _ σ) as [[cmds|t] σ1] eqn:Hhandler;
      intros [= _ <-]; apply (handleSectionBreak_stripped _ _ _ _ _ _ Hhandler). }
  destruct (Js.strictEqStr kind "table").
  { destruct (handleTable _); [destruct (newLineStyleUpdatesForAfterTableInsertion st)|];
      intros [= _ <-]; apply StrippedFrom_refl. }
  intros [= _ <-]. apply StrippedFrom_refl.
Qed.

Lemma forLoop_stripped (rest : list StructuralElement) (i : nat) (st : LoopState)
    (c : Completion LoopState) (σ σ' : Store) :
  forLoop inlineObjects content rest i st σ = (c, σ') → StrippedFrom σ σ'.
Proof.
  revert i st σ. induction rest as [|e rest IH]; intros i st σ; simpl.
  - intros [= _ <-]. apply StrippedFrom_refl.
  - unfold bind.
    destruct (loopBody inlineObjects content i e st σ) as [[st1|t] σ1] eqn:Hbody.
    + intros Hrest. apply (StrippedFrom_trans σ σ1 σ').
      * apply (loopBody_stripped _ _ _ _ _ _ Hbody).
      * apply (IH _ _ _ Hrest).
    + intros [= _ <-]. apply (loopBody_stripped _ _ _ _ _ _ Hbody).
Qed.

(** Without a section break an iteration does not write at all. *)
Lemma loopBody_reads_only (i : nat) (e : StructuralElement) (st : LoopState)
    (c : Completion LoopState) (σ σ' : Store) :
  NotSectionBreak e →
  loopBody inlineObjects content i e st σ = (c, σ') → σ' = σ.
Proof.
  intros Hkind. specialize (Hkind σ).
  unfold loopBody, bind, reading, lift, ret.
  destruct (findStructuralElementType e σ) as [kind|t]; [|intros [= _ <-]; reflexivity].
  destruct (Js.strictEqStr kind "paragraph").
  { destruct (handleParagraph _ σ); intros [= _ <-]; reflexivity. }
  destruct (Js.strictEqStr kind "sectionBreak") eqn:Hsb.
  { apply strictEqStr_true in Hsb. subst kind. contradiction. }
  destruct (Js.strictEqStr kind "table").
  { destruct (handleTable _); [destruct (newLineStyleUpdatesForAfterTableInsertion st)|];
      intros [= _ <-]; reflexivity. }
  intros [= _ <-]. reflexivity.
Qed.

Lemma forLoop_reads_only (rest : list StructuralElement) (i : nat) (st : LoopState)
    (c : Completion LoopState) (σ σ' : Store) :
  Forall NotSectionBreak rest →
  forLoop inlineObjects content rest i st σ = (c, σ') → σ' = σ.
Proof.
  intros Hrest. revert i st σ.
  induction Hrest as [|e rest He Hrest IH]; intros i st σ; simpl.
  - intros [= _ <-]. reflexivity.
  - unfold bind.
    destruct (loopBody inlineObjects content i e st σ) as [[st1|t] σ1] eqn:Hbody.
    + intros Hloop. rewrite (IH _ _ _ Hloop).
      apply (loopBody_reads_only _ _ _ _ _ _ He Hbody).
    + intros [= _ <-]. apply (loopBody_reads_only _ _ _ _ _ _ He Hbody).
Qed.

(** A section break the loop got past has no [sectionType] when the loop
    ends. *)
Lemma forLoop_untypes (rest : list StructuralElement) (i : nat) (st st' : LoopState)
    (e : StructuralElement) (σ σ' : Store) :
  forLoop inlineObjects content rest i st σ = (Normal st', σ') →
  In e rest → AlwaysSectionBreak e →
  ∃ l o, sectionBreak e ≫= sectionStyle = Some l
         ∧ σ' !! l = Some o ∧ Js.get "sectionType" o = JUndefined.
Proof.
  revert i st σ. induction rest as [|e0 rest IH]; intros i st σ Hloop Hin Hkind.
  - destruct Hin.
  - simpl in Hloop. unfold bind in Hloop.
    destruct (loopBody inlineObjects content i e0 st σ) as [[st1|t] σ1] eqn:Hbody;
      [|discriminate].
    destruct Hin as [<- | Hin]; [|exact (IH _ _ _ Hloop Hin Hkind)].
    unfold loopBody in Hbody.
    rewrite (bind_reading_Normal _ _ _ _ (Hkind σ)) in Hbody.
    revert Hbody. switch_on_kind. unfold bind at 1.
    destruct (handleSectionBreak _ _ _ σ) as [[cmds|t] σ2] eqn:Hhandler; [|discriminate].
    intros [= _ <-].
    destruct (handleSectionBreak_Normal_inv _ _ _ _ _ _ Hhandler)
      as (l & style & fields & Hstyle & _ & _ & ->).
    destruct (styleOf_Some _ _ _ _ Hstyle) as [Hl _].
    destruct (StrippedFrom_untyped _ σ' l (Js.delete "sectionType" style)
                (forLoop_stripped _ _ _ _ _ _ Hloop)) as (o & Ho & Hget).
    + apply lookup_insert_eq.
    + apply get_delete_same.
    + exists l, o. auto.
Qed.

End StoreFacts.

Section StoreOutcomes.
Context {E : Collaborators}.

Lemma tryBlock_stripped (d : Document) (c : Completion (list Request)) (σ σ' : Store) :
  tryBlock d σ = (c, σ') → StrippedFrom σ σ'.
Proof.
  unfold tryBlock.
  destruct (body d) as [b|]; [|intros [= _ <-]; apply StrippedFrom_refl].
  rewrite bind_ret. unfold bind at 1, lift at 1.
  destruct (changePageDimensions _); [|intros [= _ <-]; apply StrippedFrom_refl].
  unfold bind at 1, lift at 1.
  destruct (changePageMargins _); [|intros [= _ <-]; apply StrippedFrom_refl].
  unfold bind at 1, lift at 1.
  destruct (changePageOrientation _); [|intros [= _ <-]; apply StrippedFrom_refl].
  destruct (content b) as [elements|]; [|intros [= _ <-]; apply StrippedFrom_refl].
  rewrite bind_ret. unfold bind, ret.
  destruct (forLoop _ _ _ _ _ σ) as [[final|t] σ1] eqn:Hloop;
    intros [= _ <-]; apply (forLoop_stripped _ _ _ _ _ _ _ _ Hloop).
Qed.

Lemma store_of_pass (d : Document) (σ : Store) :
  store (jsonToBatchUpdateRequest d σ) = (tryBlock d σ).2.
Proof.
  unfold jsonToBatchUpdateRequest. destruct (tryBlock d σ) as [[out|t] σ']; reflexivity.
Qed.

(** X6. Whether the pass returns a list or aborts, all it has done to the
    document is remove [sectionType] from some style objects: every object
    is either as it was or the same without [sectionType], and no object
    has appeared or disappeared. *)
Theorem pass_only_strips (d : Document) (σ : Store) :
  StrippedFrom σ (store (jsonToBatchUpdateRequest d σ)).
Proof.
  rewrite store_of_pass.
  destruct (tryBlock d σ) as [c σ'] eqn:Hrun. simpl.
  apply (tryBlock_stripped d c σ σ' Hrun).
Qed.

(** X5. Every property other than [sectionType] reads the same after the
    pass as before it, on every object. *)
Theorem other_properties_survive (d : Document) (σ : Store) (l : loc) (k : string) :
  k ≠ "sectionType" →
  Js.get k <$> store (jsonToBatchUpdateRequest d σ) !! l = Js.get k <$> σ !! l.
Proof.
  intros Hk. rewrite store_of_pass.
  destruct (tryBlock d σ) as [c σ'] eqn:Hrun. simpl.
  destruct (tryBlock_stripped d c σ σ' Hrun l) as [-> | ->]; [reflexivity|].
  destruct (σ !! l) as [o|]; simpl; [|reflexivity].
  rewrite (get_delete_other "sectionType" k o Hk). reflexivity.
Qed.

(** X7. The section-break case is the only place where the pass itself
    writes: with the imported handlers taken not to write to the document
    (they are given no write access here), a document in which nothing is
    classified as a section break is left exactly as it was, whether the
    pass returns or aborts. *)
Theorem no_section_break_no_write (d : Document) (elements : list StructuralElement)
    (σ : Store) :
  contentOf d = Some elements →
  Forall NotSectionBreak elements →
  store (jsonToBatchUpdateRequest d σ) = σ.
Proof.
  unfold contentOf. intros Hcontent Hkinds. rewrite store_of_pass. unfold tryBlock.
  destruct (body d) as [b|]; [|discriminate]. simpl in Hcontent.
  rewrite bind_ret. unfold bind at 1, lift at 1.
  destruct (changePageDimensions _); [|reflexivity].
  unfold bind at 1, lift at 1.
  destruct (changePageMargins _); [|reflexivity].
  unfold bind at 1, lift at 1.
  destruct (changePageOrientation _); [|reflexivity].
  rewrite Hcontent, bind_ret. unfold bind, ret.
  destruct (forLoop _ _ _ _ _ σ) as [[final|t] σ1] eqn:Hloop; simpl;
    apply (forLoop_reads_only _ _ _ _ _ _ _ _ Hkinds Hloop).
Qed.

(** X8. When the pass returns a list, every element of the content that is
    classified as a section break has a style object, and that object has
    no [sectionType] any more. *)
Theorem visited_section_breaks_lose_type (d : Document)
    (elements : list StructuralElement) (out : list Request)
    (e : StructuralElement) (σ : Store) :
  returned (jsonToBatchUpdateRequest d σ) = Some out →
  contentOf d = Some elements →
  In e elements →
  AlwaysSectionBreak e →
  ∃ l o, sectionBreak e ≫= sectionStyle = Some l
         ∧ store (jsonToBatchUpdateRequest d σ) !! l = Some o
         ∧ Js.get "sectionType" o = JUndefined.
Proof.
  intros Hout Hcontent Hin Hkind.
  destruct (jsonToBatchUpdateRequest_returned d out σ Hout) as [σ' Hrun].
  rewrite store_of_pass, Hrun. simpl.
  destruct (tryBlock_Normal_inv d out σ σ' Hrun)
    as (elements' & size & orientation & margins & final & Hcontent' & _ & Hloop & _).
  rewrite Hcontent in Hcontent'. injection Hcontent' as <-.
  apply (forLoop_untypes _ _ _ _ _ _ _ _ _ Hloop Hin Hkind).
Qed.

End StoreOutcomes.

(** ** More on the traversal and its faults *)

Section TraversalOutcomes.
Context {E : Collaborators}.

(** X2. An element classified as a section break that has no [sectionBreak]
    object, or whose section break has no [sectionStyle], makes the handler
    throw a [TypeError] without touching the store; the pass then returns
    nothing, discards what the loop had accumulated and logs that one
    fault. *)
Theorem section_break_without_style_aborts (d : Document)
    (pre post : list StructuralElement) (e : StructuralElement)
    (size orientation margins : Request) (afterPre : LoopState) (σ σ1 : Store) :
  contentOf d = Some (pre ++ e :: post) →
  PageStyle d size orientation margins →
  forLoop (inlineObjects d) (pre ++ e :: post) pre 0
    (initialState size orientation margins) σ = (Normal afterPre, σ1) →
  findStructuralElementType e σ1 = Normal (JStr "sectionBreak") →
  sectionBreak e ≫= sectionStyle = None →
  ∃ msg,
    handleSectionBreak (sectionBreak e) (startIndex e) (endIndex e) σ1 =
      (Throw (Js.TypeError msg), σ1)
    ∧ jsonToBatchUpdateRequest d σ =
        {| returned := None;
           console := [logLine {| Js.name := "TypeError"; Js.message := msg;
                                  Js.stack := "" |}];
           store := σ1 |}.
Proof.
  intros Hcontent Hpage Hpre Hkind Hstyle.
  pose proof (handleSectionBreak_cases (sectionBreak e) (startIndex e) (endIndex e) σ1)
    as Hcases.
  unfold styleOf in Hcases. rewrite Hstyle in Hcases. destruct Hcases as [msg Hthrow].
  exists msg. split; [exact Hthrow|].
  assert (Hbody : loopBody (inlineObjects d) (pre ++ e :: post) (length pre) e afterPre σ1 =
                    (Throw (Js.TypeError msg), σ1)).
  { unfold loopBody. rewrite (bind_reading_Normal _ _ _ _ Hkind). switch_on_kind.
    apply (bind_Throw _ _ _ _ _ Hthrow). }
  unfold jsonToBatchUpdateRequest.
  rewrite (fault_mid_traversal d pre post e size orientation margins afterPre _ σ σ1 σ1
             Hcontent Hpage Hpre Hbody).
  reflexivity.
Qed.

(** X9. A pending newline style waits for the next table, not for the next
    element: section breaks and elements of unsupported kinds between the
    paragraph and the table leave it in the slot, and it is appended right
    after that table's commands. *)
Theorem pending_waits_for_next_table (inlineObjects : JsVal)
    (content mid : list StructuralElement) (i : nat) (P T : StructuralElement)
    (st afterMid : LoopState) (cmdsP cmdsT : list Request) (pending : Request)
    (σ σ1 : Store) :
  findStructuralElementType P σ = Normal (JStr "paragraph") →
  handleParagraph (paragraphCall inlineObjects content i P) σ =
    Normal {| insertParagraphElementRequests := cmdsP;
              stylesForNewlineBeforeTable := Some pending |} →
  Forall NeitherParagraphNorTable mid →
  forLoop inlineObjects content mid (S i)
    {| requests := requests st ++ cmdsP;
       newLineStyleUpdatesForAfterTableInsertion := None |} σ = (Normal afterMid, σ1) →
  findStructuralElementType T σ1 = Normal (JStr "table") →
  handleTable (tableCall inlineObjects T) = Normal cmdsT →
  forLoop inlineObjects content (P :: mid ++ [T]) i st σ =
    (Normal {| requests := requests afterMid ++ cmdsT ++ [pending];
               newLineStyleUpdatesForAfterTableInsertion := None |}, σ1).
Proof.
  intros HkP HP Hmid Hrun HkT HT.
  rewrite (forLoop_cons _ _ _ _ _ _ _ _ _ (loopBody_paragraph _ _ _ _ _ _ _ HkP HP)).
  cbn [insertParagraphElementRequests stylesForNewlineBeforeTable].
  assert (Hcarried :
    forLoop inlineObjects content mid (S i)
      {| requests := requests st ++ cmdsP;
         newLineStyleUpdatesForAfterTableInsertion := Some pending |} σ =
      (Normal (withPending (Some pending) afterMid), σ1)).
  { change {| requests := requests st ++ cmdsP;
              newLineStyleUpdatesForAfterTableInsertion := Some pending |}
      with (withPending (Some pending)
              {| requests := requests st ++ cmdsP;
                 newLineStyleUpdatesForAfterTableInsertion := None |}).
    rewrite (forLoop_carries _ _ _ _ _ _ _ Hmid), Hrun. reflexivity. }
  rewrite (forLoop_app _ _ _ _ _ _ _ _ _ Hcarried).
  rewrite (forLoop_cons _ _ _ _ _ _ _ _ _ (loopBody_table _ _ _ _ _ _ _ HkT HT)).
  reflexivity.
Qed.

(** X10. The three page-style emitters are called in the order page size,
    margins, orientation, before the content is looked at: the first of them
    to throw decides the fault of the pass, the store is untouched, and this
    holds whatever the content is, absent content included. *)
Theorem emitter_faults_in_call_order (d : Document) (b : Body) (t : Js.Thrown) (σ : Store) :
  body d = Some b →
  changePageDimensions (pageSizeOf d) = Throw t
  ∨ (∃ size, changePageDimensions (pageSizeOf d) = Normal size
       ∧ (changePageMargins (pageMarginsOf d) = Throw t
          ∨ (∃ margins, changePageMargins (pageMarginsOf d) = Normal margins
               ∧ changePageOrientation (orientationOf d) = Throw t))) →
  tryBlock d σ = (Throw t, σ)
  ∧ returned (jsonToBatchUpdateRequest d σ) = None
  ∧ store (jsonToBatchUpdateRequest d σ) = σ.
Proof.
  intros Hbody Hfault.
  assert (Hrun : tryBlock d σ = (Throw t, σ)).
  { unfold tryBlock. rewrite Hbody, bind_ret.
    unfold pageSizeOf, pageMarginsOf, orientationOf in Hfault.
    destruct Hfault as [Hsize | (size & Hsize & [Hmargins | (margins & Hmargins & Horientation)])].
    - apply (bind_lift_Throw _ _ _ _ Hsize).
    - rewrite (bind_lift_Normal _ _ _ _ Hsize).
      apply (bind_lift_Throw _ _ _ _ Hmargins).
    - rewrite (bind_lift_Normal _ _ _ _ Hsize), (bind_lift_Normal _ _ _ _ Hmargins).
      apply (bind_lift_Throw _ _ _ _ Horientation). }
  split; [exact Hrun|]. unfold jsonToBatchUpdateRequest. rewrite Hrun. auto.
Qed.

(** Over elements none of which is classified as a paragraph, a slot that
    is empty stays empty. *)
Lemma forLoop_keeps_slot_empty (inlineObjects : JsVal)
    (content rest : list StructuralElement) (i : nat) (st st' : LoopState) (σ σ' : Store) :
  Forall NotParagraph rest →
  newLineStyleUpdatesForAfterTableInsertion st = None →
  forLoop inlineObjects content rest i st σ = (Normal st', σ') →
  newLineStyleUpdatesForAfterTableInsertion st' = None.
Proof.
  intros Hrest. revert i st σ.
  induction Hrest as [|e rest He Hrest IH]; intros i st σ Hempty; simpl.
  - intros [= <- _]. exact Hempty.
  - unfold bind.
    destruct (loopBody inlineObjects content i e st σ) as [[st1|t] σ1] eqn:Hbody;
      [|discriminate].
    intros Hloop. refine (IH _ _ _ _ Hloop).
    revert Hbody. unfold loopBody, bind, reading, lift, ret.
    destruct (findStructuralElementType e σ) as [kind|t] eqn:Hkind; [|discriminate].
    destruct (Js.strictEqStr kind "paragraph") eqn:Hp.
    { apply strictEqStr_true in Hp. subst kind. destruct (He σ Hkind). }
    destruct (Js.strictEqStr kind "sectionBreak").
    { destruct (handleSectionBreak _ _ _ σ) as [[cmds|t] σ2]; [|discriminate].
      intros [= <- _]. exact Hempty. }
    destruct (Js.strictEqStr kind "table").
    { destruct (handleTable _); [|discriminate].
      destruct (newLineStyleUpdatesForAfterTableInsertion st); intros [= <- _]; reflexivity. }
    intros [= <- _]. exact Hempty.
Qed.

(** X11. Only a paragraph fills the pending slot.  After any run of elements
    none of which is classified as a paragraph, entered with the slot empty,
    the slot is still empty, and a table that comes next appends exactly the
    commands of its handler and nothing else. *)
Theorem no_paragraph_no_pending (inlineObjects : JsVal)
    (content pre : list StructuralElement) (i : nat) (T : StructuralElement)
    (st afterPre : LoopState) (cmds : list Request) (σ σ1 : Store) :
  Forall NotParagraph pre →
  newLineStyleUpdatesForAfterTableInsertion st = None →
  forLoop inlineObjects content pre i st σ = (Normal afterPre, σ1) →
  findStructuralElementType T σ1 = Normal (JStr "table") →
  handleTable (tableCall inlineObjects T) = Normal cmds →
  newLineStyleUpdatesForAfterTableInsertion afterPre = None
  ∧ loopBody inlineObjects content (i + length pre) T afterPre σ1 =
      (Normal {| requests := requests afterPre ++ cmds;
                 newLineStyleUpdatesForAfterTableInsertion := None |}, σ1)
  ∧ forLoop inlineObjects content (pre ++ [T]) i st σ =
      (Normal {| requests := requests afterPre ++ cmds;
                 newLineStyleUpdatesForAfterTableInsertion := None |}, σ1).
Proof.
  intros Hpre Hempty Hrun Hkind Hcall.
  pose proof (forLoop_keeps_slot_empty inlineObjects content pre i st afterPre σ σ1
                Hpre Hempty Hrun) as Hstill.
  pose proof (loopBody_table inlineObjects content (i + length pre) T afterPre cmds σ1
                Hkind Hcall) as Hbody.
  rewrite Hstill in Hbody. simpl option_list in Hbody. rewrite app_nil_r in Hbody.
  split; [exact Hstill|]. split; [exact Hbody|].
  rewrite (forLoop_app _ _ _ _ _ _ _ _ _ Hrun).
  rewrite (forLoop_cons _ _ _ _ _ _ _ _ _ Hbody). reflexivity.
Qed.

End TraversalOutcomes.

(** ** The further theorems at sample documents *)

Lemma section_break_yields_pair_witness :
  ∃ l fields sectionType point,
    Some {| sectionStyle := Some 7 |} ≫= sectionStyle = Some l
    ∧ sectionBreakPair 7 (JNum 5) (JNum 6) "contentDirection" =
        [ insertSectionBreak sectionType point;
          updateSectionStyle l
            {| range_startIndex := Js.nullish (JNum 5) (JNum 0);
               range_endIndex := JNum 6; range_segmentId := "" |} fields ]
    ∧ ((Js.strictEqNum (Js.nullish (JNum 5) (JNum 0)) 0 = true
        ∧ sectionType = JStr "CONTINUOUS" ∧ point = endOfSegmentLocation "")
       ∨ (Js.strictEqNum (Js.nullish (JNum 5) (JNum 0)) 0 = false
          ∧ sectionType = JUndefined
          ∧ point = location "" (Js.nullish (JNum 5) (JNum 0))))
    ∧ Js.get "sectionType"
        <$> (<[7 := Js.delete "sectionType" Script.unspecifiedStyle]> Script.heap) !! l =
      Some JUndefined.
Proof.
  apply (section_break_yields_pair (E := Script.collaborators)
           (Some {| sectionStyle := Some 7 |}) (JNum 5) (JNum 6)
           (sectionBreakPair 7 (JNum 5) (JNum 6) "contentDirection")
           Script.heap (<[7 := Js.delete "sectionType" Script.unspecifiedStyle]> Script.heap)).
  reflexivity.
Defined.

Lemma section_break_without_style_aborts_witness :
  let d := Script.documentOf (Some ([Script.plain] ++ Script.bare :: [Script.grid])) in
  ∃ msg,
    handleSectionBreak (E := Script.collaborators) (sectionBreak Script.bare)
      (startIndex Script.bare) (endIndex Script.bare) ∅ = (Throw (Js.TypeError msg), ∅)
    ∧ jsonToBatchUpdateRequest (E := Script.collaborators) d ∅ =
        {| returned := None;
           console := [logLine {| Js.name := "TypeError"; Js.message := msg;
                                  Js.stack := "" |}];
           store := ∅ |}.
Proof.
  apply (section_break_without_style_aborts (E := Script.collaborators)
           (Script.documentOf (Some ([Script.plain] ++ Script.bare :: [Script.grid])))
           [Script.plain] [Script.grid] Script.bare
           Script.sizeReq Script.orientationReq Script.marginsReq
           {| requests := initialRequests Script.sizeReq Script.orientationReq Script.marginsReq
                            ++ Script.plainCmds;
              newLineStyleUpdatesForAfterTableInsertion := None |} ∅ ∅).
  - reflexivity.
  - repeat split; reflexivity.
  - reflexivity.
  - reflexivity.
  - reflexivity.
Defined.

Lemma mask_fault_after_strip_witness :
  handleSectionBreak (E := Script.brokenMask)
    (Some {| sectionStyle := Some 0 |}) JUndefined (JNum 1) Script.heap =
    (Throw (Js.ThrowValue (JStr "mask")),
     <[0 := Js.delete "sectionType" Script.openingStyle]> Script.heap).
Proof.
  apply (mask_fault_after_strip (E := Script.brokenMask)
           {| sectionStyle := Some 0 |} 0 Script.openingStyle JUndefined (JNum 1)
           (Js.ThrowValue (JStr "mask")) Script.heap).
  - reflexivity.
  - reflexivity.
  - reflexivity.
Defined.

Lemma handleSectionBreak_twice_witness :
  handleSectionBreak (E := Script.collaborators)
    (Some {| sectionStyle := Some 7 |}) (JNum 5) (JNum 6)
    (<[7 := Js.delete "sectionType" Script.unspecifiedStyle]> Script.heap) =
    (Normal (sectionBreakPair 7 (JNum 5) (JNum 6) "contentDirection"),
     <[7 := Js.delete "sectionType" Script.unspecifiedStyle]> Script.heap).
Proof.
  apply (handleSectionBreak_twice (E := Script.collaborators)
           (Some {| sectionStyle := Some 7 |}) (JNum 5) (JNum 6)
           (sectionBreakPair 7 (JNum 5) (JNum 6) "contentDirection") Script.heap).
  reflexivity.
Defined.

Lemma other_properties_survive_witness :
  Js.get "contentDirection"
    <$> store (jsonToBatchUpdateRequest (E := Script.collaborators)
                 (Script.documentOf (Some [Script.opening])) Script.heap) !! 0 =
  Js.get "contentDirection" <$> Script.heap !! 0.
Proof.
  apply (other_properties_survive (E := Script.collaborators)
           (Script.documentOf (Some [Script.opening])) Script.heap 0 "contentDirection").
  discriminate.
Defined.

Lemma no_section_break_no_write_witness :
  store (jsonToBatchUpdateRequest (E := Script.collaborators)
           (Script.documentOf (Some [Script.intro; Script.grid])) Script.heap) = Script.heap.
Proof.
  apply (no_section_break_no_write (E := Script.collaborators)
           (Script.documentOf (Some [Script.intro; Script.grid]))
           [Script.intro; Script.grid] Script.heap).
  - reflexivity.
  - repeat constructor; discriminate.
Defined.

Lemma visited_section_breaks_lose_type_witness :
  let d := Script.documentOf (Some [Script.opening; Script.plain]) in
  ∃ l o, sectionBreak Script.opening ≫= sectionStyle = Some l
         ∧ store (jsonToBatchUpdateRequest (E := Script.collaborators) d Script.heap) !! l =
           Some o
         ∧ Js.get "sectionType" o = JUndefined.
Proof.
  refine (visited_section_breaks_lose_type (E := Script.collaborators)
            (Script.documentOf (Some [Script.opening; Script.plain]))
            [Script.opening; Script.plain] _ Script.opening Script.heap _ _ _ _).
  - reflexivity.
  - reflexivity.
  - left. reflexivity.
  - intros σ. reflexivity.
Defined.

Lemma pending_waits_for_next_table_witness :
  let content := [Script.intro; Script.midBreak; Script.toc; Script.grid] in
  let afterMid :=
    {| requests := (Script.plainCmds ++ Script.introCmds)
                     ++ sectionBreakPair 7 (JNum 5) (JNum 6) "contentDirection";
       newLineStyleUpdatesForAfterTableInsertion := None |} in
  forLoop (E := Script.collaborators) (JObj []) content
    (Script.intro :: [Script.midBreak; Script.toc] ++ [Script.grid]) 0
    {| requests := Script.plainCmds; newLineStyleUpdatesForAfterTableInsertion := None |}
    Script.heap =
    (Normal {| requests := requests afterMid ++ Script.gridCmds ++ [Script.introPending];
               newLineStyleUpdatesForAfterTableInsertion := None |},
     <[7 := Js.delete "sectionType" Script.unspecifiedStyle]> Script.heap).
Proof.
  apply (pending_waits_for_next_table (E := Script.collaborators) (JObj [])
           [Script.intro; Script.midBreak; Script.toc; Script.grid]
           [Script.midBreak; Script.toc] 0 Script.intro Script.grid
           {| requests := Script.plainCmds;
              newLineStyleUpdatesForAfterTableInsertion := None |}
           {| requests := (Script.plainCmds ++ Script.introCmds)
                            ++ sectionBreakPair 7 (JNum 5) (JNum 6) "contentDirection";
              newLineStyleUpdatesForAfterTableInsertion := None |}
           Script.introCmds Script.gridCmds Script.introPending Script.heap
           (<[7 := Js.delete "sectionType" Script.unspecifiedStyle]> Script.heap)).
  - reflexivity.
  - reflexivity.
  - repeat constructor; discriminate.
  - reflexivity.
  - reflexivity.
  - reflexivity.
Defined.

Lemma emitter_faults_in_call_order_witness :
  tryBlock (E := Script.brokenEmitters) (Script.documentOf None) Script.heap =
    (Throw (Js.ThrowValue (JStr "margins")), Script.heap)
  ∧ returned (jsonToBatchUpdateRequest (E := Script.brokenEmitters)
                (Script.documentOf None) Script.heap) = None
  ∧ store (jsonToBatchUpdateRequest (E := Script.brokenEmitters)
             (Script.documentOf None) Script.heap) = Script.heap.
Proof.
  apply (emitter_faults_in_call_order (E := Script.brokenEmitters)
           (Script.documentOf None) {| content := None |}
           (Js.ThrowValue (JStr "margins")) Script.heap).
  - reflexivity.
  - right. exists Script.sizeReq. split; [reflexivity|]. left. reflexivity.
Defined.

Lemma no_paragraph_no_pending_witness :
  let content := [Script.grid; Script.toc; Script.grid'] in
  let afterPre := {| requests := Script.gridCmds;
                     newLineStyleUpdatesForAfterTableInsertion := None |} in
  let final := {| requests := requests afterPre ++ Script.gridCmds';
                  newLineStyleUpdatesForAfterTableInsertion := None |} in
  newLineStyleUpdatesForAfterTableInsertion afterPre = None
  ∧ loopBody (E := Script.collaborators) (JObj []) content (0 + length [Script.grid; Script.toc])
      Script.grid' afterPre ∅ = (Normal final, ∅)
  ∧ forLoop (E := Script.collaborators) (JObj []) content
      ([Script.grid; Script.toc] ++ [Script.grid']) 0
      {| requests := []; newLineStyleUpdatesForAfterTableInsertion := None |} ∅ =
      (Normal final, ∅).
Proof.
  apply (no_paragraph_no_pending (E := Script.collaborators) (JObj [])
           [Script.grid; Script.toc; Script.grid'] [Script.grid; Script.toc] 0 Script.grid'
           {| requests := []; newLineStyleUpdatesForAfterTableInsertion := None |}
           {| requests := Script.gridCmds;
              newLineStyleUpdatesForAfterTableInsertion := None |}
           Script.gridCmds' ∅ ∅).
  - repeat constructor; discriminate.
  - reflexivity.
  - reflexivity.
  - reflexivity.
  - reflexivity.
Defined.
